(** * petsafe/devices.py: the device proxies and their state synchronisation

    A shallow embedding of [DeviceSmartFeed] and [DeviceScoopfree].

    - Python values (the JSON documents held in [self.data]) are the
      inductive type [value]; a dict is a [gmap string value], and a [str]
      is held as the UTF-8 encoding of its text.
    - A coroutine ([async def]) is a computation of the monad [M]: a function
      from the proxy state to an outcome (a returned value or a raised
      exception) and the next state.  [await c] runs [c]; building a
      coroutine without awaiting it runs nothing.
    - The state holds the two attributes of the proxy, [self.client] and
      [self.data], and the trace of the requests given to the client.
    - Python floats are IEEE 754 binary64 numbers, modelled by [spec_float]
      with precision 53 and maximal exponent 1024. *)

From Stdlib Require Import ZArith String Ascii List Bool Lia.
From Corelib Require Import SpecFloat.
From stdpp Require Import base option gmap strings list fin_maps pretty.

Set Warnings "-register-all".

Local Open Scope string_scope.
Local Open Scope Z_scope.

(** ** Python values *)

Inductive value : Type :=
  | VNone
  | VBool (b : bool)
  | VInt (n : Z)
  | VFloat (f : spec_float)
  | VStr (s : string)
  | VList (l : list value)
  | VDict (d : gmap string value).

(** The exceptions the module can raise.  [HTTPStatusError] is what
    [response.raise_for_status()] raises (the specification's RemoteError). *)
Inductive exn : Type :=
  | KeyError (k : string)
  | TypeError
  | ValueError
  | OverflowError
  | ZeroDivisionError
  | JSONDecodeError
  | HTTPStatusError (status : Z).

Inductive outcome (A : Type) : Type :=
  | Return (a : A)
  | Raise (e : exn).
Arguments Return {A} a.
Arguments Raise {A} e.

Definition obind {A B} (o : outcome A) (k : A -> outcome B) : outcome B :=
  match o with
  | Return a => k a
  | Raise e => Raise e
  end.

(** ** Floats: binary64 arithmetic *)

Module Float.

Definition prec : Z := 53.
Definition emax : Z := 1024.

Definition mul : spec_float -> spec_float -> spec_float := SFmul prec emax.

(** The binary64 number nearest to [a / b] (ties to even), for [b <> 0].
    The quotient of the two magnitudes is rounded once, so the result is
    correctly rounded whatever the size of [a] and [b]. *)
Definition of_ratio (s : bool) (a b : Z) : spec_float :=
  match Z.abs a, Z.abs b with
  | Z0, _ => S754_zero s
  | Zpos ma, Zpos mb =>
      SFdiv prec emax (S754_finite s ma 0) (S754_finite false mb 0)
  | _, _ => S754_nan
  end.

(** A decimal literal [a / 10^k] of the source text, such as [7.2]. *)
Definition literal (a : Z) (k : Z) : spec_float :=
  of_ratio (a <? 0) a (10 ^ k).

(** [a / b] on two ints: the correctly rounded quotient. *)
Definition truediv (a b : Z) : outcome spec_float :=
  if b =? 0 then Raise ZeroDivisionError
  else
    match of_ratio (xorb (a <? 0) (b <? 0)) a b with
    | S754_infinity _ => Raise OverflowError
    | f => Return f
    end.

(** The integer nearest to [num / den] for [den > 0], ties to even. *)
Definition round_half_even (num den : Z) : Z :=
  let q := num / den in
  match 2 * (num mod den) ?= den with
  | Lt => q
  | Gt => q + 1
  | Eq => if Z.even q then q else q + 1
  end.

(** The magnitude [m * 2^e * scale] rounded to an integer. *)
Definition round_magnitude (m : positive) (e : Z) (scale : Z) : Z :=
  if 0 <=? e then Zpos m * scale * 2 ^ e
  else round_half_even (Zpos m * scale) (2 ^ (- e)).

(** [round(x)]: the nearest int, ties to even. *)
Definition round_int (x : spec_float) : outcome Z :=
  match x with
  | S754_zero _ => Return 0
  | S754_infinity _ => Raise OverflowError
  | S754_nan => Raise ValueError
  | S754_finite s m e =>
      let n := round_magnitude m e 1 in
      Return (if s then - n else n)
  end.

(** [round(x, ndigits)] for [0 <= ndigits]: the decimal with [ndigits]
    digits after the point nearest to the exact value of [x] (ties to
    even), converted back to the nearest binary64 number. *)
Definition round_ndigits (x : spec_float) (ndigits : Z) : spec_float :=
  match x with
  | S754_finite s m e =>
      of_ratio s (round_magnitude m e (10 ^ ndigits)) (10 ^ ndigits)
  | _ => x
  end.

(** [int(x)]: truncation towards zero. *)
Definition trunc (x : spec_float) : outcome Z :=
  match x with
  | S754_zero _ => Return 0
  | S754_infinity _ => Raise OverflowError
  | S754_nan => Raise ValueError
  | S754_finite s m e =>
      let n := if 0 <=? e then Zpos m * 2 ^ e else Zpos m / 2 ^ (- e) in
      Return (if s then - n else n)
  end.

(** [x < 0] *)
Definition is_negative (x : spec_float) : bool :=
  SFltb x (S754_zero false).

End Float.


(** ** Built-in operations of Python used by the module *)

Module Py.

(** [o[k]] for a string literal [k]. *)
Definition getitem (o : value) (k : string) : outcome value :=
  match o with
  | VDict d =>
      match d !! k with
      | Some v => Return v
      | None => Raise (KeyError k)
      end
  | _ => Raise TypeError
  end.

(** [o[k] = v] for a string [k]; returns the updated object. *)
Definition setitem (o : value) (k : string) (v : value) : outcome value :=
  match o with
  | VDict d => Return (VDict (<[k := v]> d))
  | _ => Raise TypeError
  end.

(** [s + o] for a string [s]. *)
Definition concat (s : string) (o : value) : outcome string :=
  match o with
  | VStr t => Return (s +:+ t)
  | _ => Raise TypeError
  end.

(** [o == s] for a string literal [s]. *)
Definition eq_str (o : value) (s : string) : bool :=
  match o with
  | VStr t => bool_decide (t = s)
  | _ => false
  end.

(** [x is None]. *)
Definition is_none (o : value) : bool :=
  match o with
  | VNone => true
  | _ => false
  end.

Definition chars (s : string) : list value :=
  (fun c => VStr (String c EmptyString)) <$> list_ascii_of_string s.

(** The items a [for] loop over [o] visits. *)
Definition iter (o : value) : outcome (list value) :=
  match o with
  | VList l => Return l
  | VDict d => Return ((fun kv => VStr (fst kv)) <$> map_to_list d)
  | VStr s => Return (chars s)
  | _ => Raise TypeError
  end.

(** [str(n)] for an int. *)
Definition str (n : Z) : string := pretty n.

(** Truth value of an object, as tested by [not o]. *)
Definition truth (o : value) : bool :=
  match o with
  | VNone => false
  | VBool b => b
  | VInt n => negb (n =? 0)
  | VFloat (S754_zero _) => false
  | VFloat _ => true
  | VStr s => negb (bool_decide (s = ""))
  | VList l => negb (bool_decide (l = []))
  | VDict d => negb (bool_decide (d = ∅))
  end.

(** *** [int(s)] on a string

    A [str] is held as the UTF-8 encoding of its text, and [int] reads its
    code points.  [code_points] decodes the bytes; bytes that are the
    encoding of no text give [None]. *)
Definition byte (c : ascii) : Z := Z.of_nat (nat_of_ascii c).

Definition continuation (b : Z) : option Z :=
  if (128 <=? b) && (b <=? 191) then Some (b - 128) else None.

Fixpoint code_points (l : list Z) : option (list Z) :=
  match l with
  | [] => Some []
  | b0 :: r0 =>
      if b0 <? 128 then cons b0 <$> code_points r0
      else if (194 <=? b0) && (b0 <=? 223) then
        match r0 with
        | b1 :: r1 =>
            c1 ← continuation b1;
            cons ((b0 - 192) * 64 + c1) <$> code_points r1
        | _ => None
        end
      else if (224 <=? b0) && (b0 <=? 239) then
        match r0 with
        | b1 :: b2 :: r2 =>
            c1 ← continuation b1;
            c2 ← continuation b2;
            let c := ((b0 - 224) * 64 + c1) * 64 + c2 in
            if c <? 2048 then None else cons c <$> code_points r2
        | _ => None
        end
      else if (240 <=? b0) && (b0 <=? 244) then
        match r0 with
        | b1 :: b2 :: b3 :: r3 =>
            c1 ← continuation b1;
            c2 ← continuation b2;
            c3 ← continuation b3;
            let c := (((b0 - 240) * 64 + c1) * 64 + c2) * 64 + c3 in
            if (c <? 65536) || (1114111 <? c) then None
            else cons c <$> code_points r3
        | _ => None
        end
      else None
  end.

(** The blanks of Unicode beyond ASCII ([str.isspace]). *)
Definition is_unicode_space (c : Z) : bool :=
  (c =? 133) || (c =? 160) || (c =? 5760) ||
  ((8192 <=? c) && (c <=? 8202)) ||
  (c =? 8232) || (c =? 8233) || (c =? 8239) || (c =? 8287) || (c =? 12288).

(** The decimal digits of Unicode 14.0, the character database of
    CPython 3.11: in each script the digits 0 to 9 are ten code points in a
    row, and this is the list of the zeros. *)
Definition decimal_zeros : list Z :=
  [ 48; 1632; 1776; 1984; 2406; 2534; 2662; 2790; 2918; 3046; 3174;
    3302; 3430; 3558; 3664; 3792; 3872; 4160; 4240; 6112; 6160; 6470;
    6608; 6784; 6800; 6992; 7088; 7232; 7248; 42528; 43216; 43264;
    43472; 43504; 43600; 44016; 65296; 66720; 68912; 69734; 69872;
    69942; 70096; 70384; 70736; 70864; 71248; 71360; 71472; 71904;
    72016; 72784; 73040; 73120; 92768; 92864; 93008; 120782; 120792;
    120802; 120812; 120822; 123200; 123632; 125264; 130032 ].

(** The value of a code point that is a decimal digit. *)
Definition decimal (c : Z) : option Z :=
  (fun zero => c - zero) <$>
  find (fun zero => (zero <=? c) && (c <=? zero + 9)) decimal_zeros.

(** What [int] makes of one code point before it parses the text: a code
    point below 127 is kept, a blank beyond becomes a space, a decimal digit
    beyond becomes the ASCII digit of its value, and anything else ends the
    conversion. *)
Definition to_ascii (c : Z) : option Z :=
  if c <? 127 then Some c
  else if is_unicode_space c then Some 32
  else (fun d => 48 + d) <$> decimal c.

(** The blanks the parser skips at both ends: tab to carriage return, and
    the space. *)
Definition is_space (c : Z) : bool :=
  ((9 <=? c) && (c <=? 13)) || (c =? 32).

Definition digit_of (c : Z) : option Z :=
  if (48 <=? c) && (c <=? 57) then Some (c - 48) else None.

Fixpoint lstrip (l : list Z) : list Z :=
  match l with
  | c :: r => if is_space c then lstrip r else l
  | [] => []
  end.

Definition strip (l : list Z) : list Z :=
  rev (lstrip (rev (lstrip l))).

(** The digits of a literal, where single underscores may separate digits:
    the number read and how many digits it has. *)
Fixpoint digits (l : list Z) (acc count : Z) (after_digit : bool) : option (Z * Z) :=
  match l with
  | [] => if after_digit then Some (acc, count) else None
  | c :: r =>
      match digit_of c with
      | Some d => digits r (10 * acc + d) (count + 1) true
      | None =>
          if after_digit && (c =? 95) then digits r acc count false
          else None
      end
  end.

(** The default of [sys.get_int_max_str_digits()]: a literal with more
    digits is refused. *)
Definition max_str_digits : Z := 4300.

Definition literal (l : list Z) : option Z :=
  '(n, count) ← digits l 0 0 false;
  if count <=? max_str_digits then Some n else None.

Definition int_of_string (s : string) : option Z :=
  points ← code_points (byte <$> list_ascii_of_string s);
  text ← mapM to_ascii points;
  match strip text with
  | 43 :: r => literal r
  | 45 :: r => Z.opp <$> literal r
  | l => literal l
  end.

(** [int(o)] *)
Definition int (o : value) : outcome Z :=
  match o with
  | VInt n => Return n
  | VBool b => Return (if b then 1 else 0)
  | VFloat f => Float.trunc f
  | VStr s =>
      match int_of_string s with
      | Some n => Return n
      | None => Raise ValueError
      end
  | VNone | VList _ | VDict _ => Raise TypeError
  end.

(** [max(x, 0)] for a float [x]: the first argument unless [0 > x]. *)
Definition max0 (x : spec_float) : value :=
  if Float.is_negative x then VInt 0 else VFloat x.

(** [round(o)] with no [ndigits]. *)
Definition round (o : value) : outcome value :=
  match o with
  | VInt n => Return (VInt n)
  | VBool b => Return (VInt (if b then 1 else 0))
  | VFloat f => obind (Float.round_int f) (fun n => Return (VInt n))
  | _ => Raise TypeError
  end.

(** [isinstance(e, ValueError)]: the class and its subclasses. *)
Definition is_ValueError (e : exn) : bool :=
  match e with
  | ValueError | JSONDecodeError => true
  | _ => false
  end.

End Py.


(** ** The transport and the proxy state *)

Inductive verb : Type := GET | POST | PUT | PATCH | DELETE.

#[global] Instance verb_eq_dec : EqDecision verb.
Proof. solve_decision. Defined.

(** A call [client.api_<verb>(path, data=payload)]. *)
Record request : Type := Request {
  req_verb : verb;
  req_path : string;
  req_data : option value
}.

(** What the module reads of a response: its status code and
    [json.loads(response.content.decode("UTF-8"))], which is [None] when the
    decoding or the parsing raises. *)
Record response : Type := Response {
  status_code : Z;
  loaded : option value
}.

(** The client answers a request knowing the requests made before it. *)
Definition transport : Type := list request -> request -> response.

Record state : Type := State {
  client : transport;
  data : value;
  trace : list request
}.

Definition set_data (v : value) (st : state) : state :=
  {| client := client st; data := v; trace := trace st |}.

Definition record (r : request) (st : state) : state :=
  {| client := client st; data := data st; trace := trace st ++ [r] |}.

(** ** Coroutines *)

Definition M (A : Type) : Type := state -> outcome A * state.

#[global] Instance outcome_ret : MRet outcome := fun A a => Return a.
#[global] Instance outcome_bind : MBind outcome := fun A B k o => obind o k.

#[global] Instance M_ret : MRet M := fun A a st => (Return a, st).
#[global] Instance M_bind : MBind M := fun A B k m st =>
  match m st with
  | (Return a, st') => k a st'
  | (Raise e, st') => (Raise e, st')
  end.

(** An expression that reads [self.data]. *)
Definition read {A} (f : value -> outcome A) : M A :=
  fun st => (f (data st), st).

(** An expression that touches neither the proxy nor the client. *)
Definition lift {A} (o : outcome A) : M A :=
  fun st => (o, st).

(** [self.data = v] *)
Definition assign (v : value) : M unit :=
  fun st => (Return tt, set_data v st).

(** [await self.client.api_<verb>(path, data=payload)] *)
Definition api (v : verb) (path : string) (payload : option value) : M response :=
  fun st =>
    let r := Request v path payload in
    (Return (client st (trace st) r), record r st).

Definition api_get (path : string) : M response := api GET path None.
Definition api_post (path : string) (d : value) : M response := api POST path (Some d).
Definition api_put (path : string) (d : value) : M response := api PUT path (Some d).
Definition api_patch (path : string) (d : value) : M response := api PATCH path (Some d).
Definition api_delete (path : string) : M response := api DELETE path None.

Definition is_success (r : response) : bool :=
  (200 <=? status_code r) && (status_code r <=? 299).

(** Modelled from the spec: the response class belongs to the HTTP client,
    which is not among the sources.  [raise_for_status] raises the remote
    error whenever the status falls outside the success range 200..299. *)
Definition raise_for_status (r : response) : M unit :=
  lift (if is_success r then Return tt else Raise (HTTPStatusError (status_code r))).

(** [json.loads(response.content.decode("UTF-8"))] *)
Definition loads (r : response) : M value :=
  lift (match loaded r with
        | Some v => Return v
        | None => Raise JSONDecodeError
        end).

(** A statement that calls a coroutine function and drops the coroutine
    object: none of the body runs (the interpreter only warns that the
    coroutine was never awaited). *)
Definition never_awaited {A} (coro : M A) : M unit := mret tt.

(** [o[k1][k2] = v]: the inner dict is updated in place.  The documents held
    by a proxy come from [json.loads], so they are trees: the inner dict is
    reachable through [o[k1]] only, and the update is the update of that
    entry. *)
Definition setitem_in (o : value) (k1 k2 : string) (v : value) : outcome value :=
  inner ← Py.getitem o k1;
  inner' ← Py.setitem inner k2 v;
  Py.setitem o k1 inner'.

(** ** class DeviceSmartFeed *)

Module DeviceSmartFeed.

(** Property [api_name]. *)
Definition api_name (d : value) : outcome value :=
  Py.getitem d "thing_name".

(** Property [api_path]. *)
Definition api_path (d : value) : outcome string :=
  name ← api_name d;
  p ← Py.concat "smart-feed/feeders/" name;
  mret (p +:+ "/").

Definition update_data : M unit :=
  path ← read api_path;
  response ← api_get path;
  raise_for_status response;;
  v ← loads response;
  assign v.

Definition put_setting (setting : string) (value : value) (force_update : bool) : M unit :=
  path ← read api_path;
  response ← api_put (path +:+ "settings/" +:+ setting) (VDict {[ "value" := value ]});
  raise_for_status response;;
  if force_update then update_data
  else
    d ← read (fun d => setitem_in d "settings" setting value);
    assign d.

Definition get_messages_since (days : Z) : M value :=
  path ← read api_path;
  response ← api_get (path +:+ "messages?days=" +:+ Py.str days);
  raise_for_status response;;
  loads response.

(** The loop of [get_last_feeding] over the items of [messages]. *)
Fixpoint first_feed_done (messages : list value) : outcome value :=
  match messages with
  | [] => Return VNone
  | message :: rest =>
      t ← Py.getitem message "message_type";
      if Py.eq_str t "FEED_DONE" then Return message
      else first_feed_done rest
  end.

Definition get_last_feeding : M value :=
  messages ← get_messages_since 7;
  items ← lift (Py.iter messages);
  lift (first_feed_done items).

(** [feed(amount, slow_feed, update_data)]; the defaults of the source are
    [amount = 1], [slow_feed = None] and [update_data = True]. *)
Definition feed (amount : value) (slow_feed : value) (update : bool) : M unit :=
  slow_feed ←
    (if Py.is_none slow_feed
     then read (fun d => settings ← Py.getitem d "settings";
                         Py.getitem settings "slow_feed")
     else mret slow_feed);
  path ← read api_path;
  response ← api_post (path +:+ "meals")
               (VDict {[ "amount" := amount; "slow_feed" := slow_feed ]});
  raise_for_status response;;
  if update then update_data else mret tt.

Definition repeat_feed : M unit :=
  last_feeding ← get_last_feeding;
  amount ← lift (Py.getitem last_feeding "amount");
  feed amount VNone true.

Definition prime : M unit :=
  feed (VInt 5) (VBool false) true.

Definition get_schedules : M value :=
  path ← read api_path;
  response ← api_get (path +:+ "schedules");
  raise_for_status response;;
  loads response.

Definition schedule_feed (time amount : value) (update : bool) : M value :=
  path ← read api_path;
  response ← api_post (path +:+ "schedules")
               (VDict {[ "time" := time; "amount" := amount ]});
  raise_for_status response;;
  (if update then update_data else mret tt);;
  loads response.

Definition modify_schedule (time amount : value) (schedule_id : string)
    (update : bool) : M unit :=
  path ← read api_path;
  response ← api_put (path +:+ "schedules/" +:+ schedule_id)
               (VDict {[ "time" := time; "amount" := amount ]});
  raise_for_status response;;
  if update then update_data else mret tt.

Definition delete_schedule (schedule_id : string) (update : bool) : M unit :=
  path ← read api_path;
  response ← api_delete (path +:+ "schedules/" +:+ schedule_id);
  raise_for_status response;;
  if update then update_data else mret tt.

Definition delete_all_schedules (update : bool) : M unit :=
  path ← read api_path;
  response ← api_delete (path +:+ "schedules");
  raise_for_status response;;
  if update then update_data else mret tt.

Definition pause_schedules (value : value) (update : bool) : M unit :=
  path ← read api_path;
  response ← api_put (path +:+ "settings/paused") (VDict {[ "value" := value ]});
  raise_for_status response;;
  if update then update_data else mret tt.

(** Property [id]. *)
Definition id (d : value) : outcome value :=
  Py.getitem d "id".

Definition minVoltage : Z := 22755.
Definition maxVoltage : Z := 29100.

(** Property [battery_voltage]; [7.2] is the literal [72 / 10^1]. *)
Definition battery_voltage (d : value) : outcome value :=
  match
    raw ← Py.getitem d "battery_voltage";
    n ← Py.int raw;
    q ← Float.truediv n 32767;
    mret (VFloat (Float.round_ndigits (Float.mul q (Float.literal 72 1)) 3))
  with
  | Raise e => if Py.is_ValueError e then Return (VInt (-1)) else Raise e
  | r => r
  end.

(** Property [battery_level]. *)
Definition battery_level (d : value) : outcome value :=
  installed ← Py.getitem d "is_batteries_installed";
  if negb (Py.truth installed) then Return (VInt 0)
  else
    raw ← Py.getitem d "battery_voltage";
    n ← Py.int raw;
    q ← Float.truediv (100 * (n - minVoltage)) (maxVoltage - minVoltage);
    Py.round (Py.max0 q).

(** The properties read from the [settings] sub-mapping. *)
Definition setting_of (k : string) (d : value) : outcome value :=
  settings ← Py.getitem d "settings";
  Py.getitem settings k.

Definition paused : value -> outcome value := setting_of "paused".
Definition slow_feed : value -> outcome value := setting_of "slow_feed".
Definition child_lock : value -> outcome value := setting_of "child_lock".
Definition friendly_name : value -> outcome value := setting_of "friendly_name".
Definition pet_type : value -> outcome value := setting_of "pet_type".

(** The property setters: each calls [put_setting] and drops the
    coroutine. *)
Definition set_paused (value : value) : M unit :=
  never_awaited (put_setting "paused" value false).
Definition set_slow_feed (value : value) : M unit :=
  never_awaited (put_setting "slow_feed" value false).
Definition set_child_lock (value : value) : M unit :=
  never_awaited (put_setting "child_lock" value false).
Definition set_friendly_name (value : value) : M unit :=
  never_awaited (put_setting "friendly_name" value false).
Definition set_pet_type (value : value) : M unit :=
  never_awaited (put_setting "pet_type" value false).

Definition food_sensor_current (d : value) : outcome value :=
  Py.getitem d "food_sensor_current".

Definition food_low_status (d : value) : outcome value :=
  raw ← Py.getitem d "is_food_low";
  n ← Py.int raw;
  mret (VInt n).

End DeviceSmartFeed.

(** ** class DeviceScoopfree *)

Module DeviceScoopfree.

Definition api_name (d : value) : outcome value :=
  Py.getitem d "thingName".

Definition api_path (d : value) : outcome string :=
  name ← api_name d;
  p ← Py.concat "scoopfree/product/product/" name;
  mret (p +:+ "/").

Definition update_data : M unit :=
  path ← read api_path;
  response ← api_get path;
  raise_for_status response;;
  v ← loads response;
  assign v.

(** The tail shared by [rake], [reset] and [modify_timer]: with
    [update_data] the refreshed [self.data["data"]] is returned, otherwise
    the function falls off its end and returns [None]. *)
Definition refreshed_data (update : bool) : M value :=
  if update then update_data;; read (fun d => Py.getitem d "data")
  else mret VNone.

Definition rake (update : bool) : M value :=
  path ← read api_path;
  response ← api_post (path +:+ "rake-now") (VDict ∅);
  raise_for_status response;;
  refreshed_data update.

Definition reset (rakeCount : value) (update : bool) : M value :=
  path ← read api_path;
  response ← api_patch (path +:+ "shadow") (VDict {[ "rakeCount" := rakeCount ]});
  raise_for_status response;;
  refreshed_data update.

Definition modify_timer (rakeDelayTime : value) (update : bool) : M value :=
  path ← read api_path;
  response ← api_patch (path +:+ "shadow")
               (VDict {[ "rakeDelayTime" := rakeDelayTime ]});
  raise_for_status response;;
  refreshed_data update.

Definition get_activity : M value :=
  path ← read api_path;
  response ← api_get (path +:+ "activity");
  raise_for_status response;;
  loads response.

Definition patch_setting (setting : string) (value : value) (force_update : bool) : M unit :=
  path ← read api_path;
  response ← api_patch (path +:+ "settings") (VDict {[ setting := value ]});
  raise_for_status response;;
  if force_update then update_data
  else
    d ← read (fun d => Py.setitem d setting value);
    assign d.

Definition friendly_name (d : value) : outcome value :=
  Py.getitem d "friendlyName".

Definition set_friendly_name (value : value) : M unit :=
  never_awaited (patch_setting "friendlyName" value false).

End DeviceScoopfree.

(** ** Sample transports and snapshots *)

(** A transport that answers every request with the same status and body. *)
Definition answer (code : Z) (body : option value) : transport :=
  fun _ _ => Response code body.

Definition feeder0 : value :=
  VDict {[ "thing_name" := VStr "feeder-1";
           "battery_voltage" := VStr "29100";
           "is_batteries_installed" := VBool true;
           "settings" := VDict {[ "slow_feed" := VBool true;
                                  "paused" := VBool false ]} ]}.

Definition litterbox0 : value :=
  VDict {[ "thingName" := VStr "box-1"; "friendlyName" := VStr "Box" ]}.

Definition feeder1 : value :=
  VDict {[ "thing_name" := VStr "feeder-1";
           "battery_voltage" := VStr "32767";
           "is_batteries_installed" := VBool true ]}.

(** A feeder that reports no batteries and no voltage (JSON null). *)
Definition feeder_unpowered : value :=
  VDict {[ "thing_name" := VStr "feeder-1";
           "battery_voltage" := VNone;
           "is_batteries_installed" := VBool false ]}.

(** A feeder whose voltage is a text that is not a number. *)
Definition feeder_unreadable : value :=
  VDict {[ "thing_name" := VStr "feeder-1";
           "battery_voltage" := VStr "n/a";
           "is_batteries_installed" := VBool true ]}.

(** A transport that answers every GET with status 200 and one body, and
    every other request with status 200 and another body. *)
Definition replies (get_body write_body : option value) : transport :=
  fun _ r =>
    match req_verb r with
    | GET => Response 200 get_body
    | _ => Response 200 write_body
    end.

(** A litterbox document with its "data" entry. *)
Definition litterbox1 : value :=
  VDict {[ "thingName" := VStr "box-1";
           "data" := VDict {[ "rakeCount" := VInt 0 ]} ]}.

(** A feeder whose batteries are about half way down the nominal range. *)
Definition feeder_half : value :=
  VDict {[ "thing_name" := VStr "feeder-2";
           "battery_voltage" := VInt 25928;
           "is_batteries_installed" := VInt 1 ]}.

(** A feeder whose batteries are below the nominal range. *)
Definition feeder_low : value :=
  VDict {[ "thing_name" := VStr "feeder-3";
           "battery_voltage" := VInt 12000;
           "is_batteries_installed" := VBool true ]}.

(** Feeders whose raw voltage is an integer far outside the floats. *)
Definition feeder_overflow : value :=
  VDict {[ "thing_name" := VStr "feeder-4";
           "battery_voltage" := VInt (- 10 ^ 400);
           "is_batteries_installed" := VBool true ]}.

Definition feeder_huge : value :=
  VDict {[ "thing_name" := VStr "feeder-5";
           "battery_voltage" := VInt (10 ^ 400);
           "is_batteries_installed" := VBool true ]}.

(** A transport that accepts every write with status 200 and refuses every
    GET with the given status. *)
Definition refuses_reads (code : Z) : transport :=
  fun _ r =>
    match req_verb r with
    | GET => Response code None
    | _ => Response 200 None
    end.


(** A proxy holding snapshot [d], whose client answers every request with
    the same status and body, before any request. *)
Definition proxy (code : Z) (body : option value) (d : value) : state :=
  State (answer code body) d [].

(** ** The mutating operations of both proxies *)

Inductive mutation : Type :=
  | PutSetting (setting : string) (v : value) (force_update : bool)
  | Feed (amount slow_feed : value) (update : bool)
  | ScheduleFeed (time amount : value) (update : bool)
  | ModifySchedule (time amount : value) (schedule_id : string) (update : bool)
  | DeleteSchedule (schedule_id : string) (update : bool)
  | DeleteAllSchedules (update : bool)
  | PauseSchedules (v : value) (update : bool)
  | PatchSetting (setting : string) (v : value) (force_update : bool)
  | Rake (update : bool)
  | Reset (rakeCount : value) (update : bool)
  | ModifyTimer (rakeDelayTime : value) (update : bool).

(** A function that ends without a [return] statement returns [None]. *)
Definition returns_none (m : M unit) : M value :=
  m;; mret VNone.

Definition perform (op : mutation) : M value :=
  match op with
  | PutSetting setting v force =>
      returns_none (DeviceSmartFeed.put_setting setting v force)
  | Feed amount slow_feed update =>
      returns_none (DeviceSmartFeed.feed amount slow_feed update)
  | ScheduleFeed time amount update =>
      DeviceSmartFeed.schedule_feed time amount update
  | ModifySchedule time amount schedule_id update =>
      returns_none (DeviceSmartFeed.modify_schedule time amount schedule_id update)
  | DeleteSchedule schedule_id update =>
      returns_none (DeviceSmartFeed.delete_schedule schedule_id update)
  | DeleteAllSchedules update =>
      returns_none (DeviceSmartFeed.delete_all_schedules update)
  | PauseSchedules v update =>
      returns_none (DeviceSmartFeed.pause_schedules v update)
  | PatchSetting setting v force =>
      returns_none (DeviceScoopfree.patch_setting setting v force)
  | Rake update => DeviceScoopfree.rake update
  | Reset rakeCount update => DeviceScoopfree.reset rakeCount update
  | ModifyTimer rakeDelayTime update =>
      DeviceScoopfree.modify_timer rakeDelayTime update
  end.

(** A computation only ever appends to the trace of requests. *)
Definition extends {A} (m : M A) : Prop :=
  forall st, exists more, trace (m st).2 = (trace st ++ more)%list.

(** [m] aborts on a failed write: when the first request it sends is
    answered with a status outside the success range, it raises the remote
    error for that status, sends nothing more and keeps the snapshot; and
    that first request is not a read. *)
Definition aborts_on_failure {A} (m : M A) : Prop :=
  forall st req rest,
    trace (m st).2 = (trace st ++ req :: rest)%list ->
    is_success (client st (trace st) req) = false ->
    (m st).1 = Raise (HTTPStatusError (status_code (client st (trace st) req))) /\
    data (m st).2 = data st /\
    rest = [] /\
    req_verb req <> GET.

(** [m] sends no request. *)
Definition silent {A} (m : M A) : Prop :=
  forall st, trace (m st).2 = trace st.

(** [m] aborts on a refused request: whichever of the requests it sends is
    answered with a status outside the success range, be it the write or
    the refresh that follows, [m] raises the remote error for that status,
    that request is the last one it sends, and the snapshot is the one held
    before the call. *)
Definition aborts_on_refusal {A} (m : M A) : Prop :=
  forall st pre req rest,
    trace (m st).2 = (trace st ++ pre ++ req :: rest)%list ->
    is_success (client st (trace st ++ pre)%list req) = false ->
    (m st).1 =
      Raise (HTTPStatusError (status_code (client st (trace st ++ pre)%list req))) /\
    data (m st).2 = data st /\
    rest = [].

(** From state [st], [m] begins with the write [req]: the first request it
    sends is [req], which is not a GET, and when [req] is refused the call
    ends there, with the remote error and the state as it was but for the
    trace. *)
Definition begins_with {A} (m : M A) (st : state) (req : request) : Prop :=
  (exists rest, trace (m st).2 = (trace st ++ req :: rest)%list) /\
  req_verb req <> GET /\
  (is_success (client st (trace st) req) = false ->
   m st = (Raise (HTTPStatusError (status_code (client st (trace st) req))),
           record req st)).

(** ** Shapes of the effects of a call *)

(** [m] adds to the trace a list of requests that satisfies [P]. *)
Definition sends {A} (P : list request -> Prop) (m : M A) : Prop :=
  forall st, exists more, trace (m st).2 = (trace st ++ more)%list /\ P more.

Definition no_request (l : list request) : Prop := l = [].

Definition at_most_one_get (l : list request) : Prop :=
  (length l <= 1)%nat /\ Forall (fun r => req_verb r = GET) l.

(** Nothing, or one request that is not a GET followed by at most one GET. *)
Definition write_then_refresh (l : list request) : Prop :=
  l = [] \/
  exists w rest, l = w :: rest /\ req_verb w <> GET /\ at_most_one_get rest.

(** [m] leaves both attributes of the proxy as they were. *)
Definition keeps_proxy {A} (m : M A) : Prop :=
  forall st, data (m st).2 = data st /\ client (m st).2 = client st.

(** The path property of the class a mutating operation belongs to. *)
Definition path_of (op : mutation) : value -> outcome string :=
  match op with
  | PutSetting _ _ _ | Feed _ _ _ | ScheduleFeed _ _ _
  | ModifySchedule _ _ _ _ | DeleteSchedule _ _ | DeleteAllSchedules _
  | PauseSchedules _ _ => DeviceSmartFeed.api_path
  | PatchSetting _ _ _ | Rake _ | Reset _ _ | ModifyTimer _ _ =>
      DeviceScoopfree.api_path
  end.

(** Whether an operation changes the snapshot when all goes well: the
    setting calls always do (they merge or refresh), the others only when
    asked to refresh. *)
Definition touches_snapshot (op : mutation) : bool :=
  match op with
  | PutSetting _ _ _ | PatchSetting _ _ _ => true
  | Feed _ _ update | ScheduleFeed _ _ update | ModifySchedule _ _ _ update
  | DeleteSchedule _ update | DeleteAllSchedules update
  | PauseSchedules _ update | Rake update | Reset _ update
  | ModifyTimer _ update => update
  end.

(** What an operation reads of the snapshot before it sends anything: the
    path of its device and, for [feed] called without a slow-feed value,
    the setting. *)
Definition prepared (op : mutation) (d : value) : Prop :=
  (exists path, path_of op d = Return path) /\
  (forall amount update,
     op = Feed amount VNone update ->
     exists v, DeviceSmartFeed.slow_feed d = Return v).

(** A message of the history that is a completed feeding, and one that has
    a type but another one. *)
Definition feed_done (message : value) : Prop :=
  exists t, Py.getitem message "message_type" = Return t /\
            Py.eq_str t "FEED_DONE" = true.

Definition other_message (message : value) : Prop :=
  exists t, Py.getitem message "message_type" = Return t /\
            Py.eq_str t "FEED_DONE" = false.

(** Sample messages. *)
Definition msg_food_low : value :=
  VDict {[ "message_type" := VStr "FOOD_LOW" ]}.

Definition msg_fed (amount : Z) : value :=
  VDict {[ "message_type" := VStr "FEED_DONE"; "amount" := VInt amount ]}.

Definition msg_untyped : value :=
  VDict {[ "amount" := VInt 3 ]}.

(** * Properties *)

(** ** Running coroutines *)

Lemma bind_run {A B} (m : M A) (k : A -> M B) (st : state) :
  (m ≫= k) st =
  match m st with
  | (Return a, st') => k a st'
  | (Raise e, st') => (Raise e, st')
  end.
Proof. reflexivity. Qed.

Lemma read_run {A B} (f : value -> outcome A) (k : A -> M B) (st : state) :
  (read f ≫= k) st =
  match f (data st) with
  | Return a => k a st
  | Raise e => (Raise e, st)
  end.
Proof. rewrite bind_run. unfold read. by destruct (f (data st)). Qed.

(** A request followed by [raise_for_status]: the continuation runs only on
    a status in the success range. *)
Lemma checked_run {B} (v : verb) (path : string) (payload : option value)
    (k : response -> M B) (st : state) :
  (api v path payload ≫= fun response => raise_for_status response ≫= fun _ => k response) st =
  let r := Request v path payload in
  let response := client st (trace st) r in
  if is_success response then k response (record r st)
  else (Raise (HTTPStatusError (status_code response)), record r st).
Proof.
  rewrite bind_run. unfold api. cbn zeta. rewrite bind_run.
  unfold raise_for_status, lift. by destruct (is_success _).
Qed.

Lemma loads_run {B} (r : response) (k : value -> M B) (st : state) :
  (loads r ≫= k) st =
  match loaded r with
  | Some v => k v st
  | None => (Raise JSONDecodeError, st)
  end.
Proof. rewrite bind_run. unfold loads, lift. by destruct (loaded r). Qed.

(** ** API paths *)

(** C9: the feeder's path is "smart-feed/feeders/" + thing_name + "/" and the
    litterbox's is "scoopfree/product/product/" + thingName + "/", the
    identity string being inserted as it is. *)
Theorem api_path_concatenation (d : value) (name : string) :
  (Py.getitem d "thing_name" = Return (VStr name) ->
   DeviceSmartFeed.api_path d = Return (("smart-feed/feeders/" +:+ name) +:+ "/"))
  /\
  (Py.getitem d "thingName" = Return (VStr name) ->
   DeviceScoopfree.api_path d = Return (("scoopfree/product/product/" +:+ name) +:+ "/")).
Proof.
  split; intros H.
  - unfold DeviceSmartFeed.api_path, DeviceSmartFeed.api_name. by rewrite H.
  - unfold DeviceScoopfree.api_path, DeviceScoopfree.api_name. by rewrite H.
Qed.

Lemma api_path_concatenation_witness :
  DeviceSmartFeed.api_path feeder0 = Return "smart-feed/feeders/feeder-1/"
  /\ DeviceScoopfree.api_path litterbox0 = Return "scoopfree/product/product/box-1/".
Proof.
  split.
  - apply (proj1 (api_path_concatenation feeder0 "feeder-1")). reflexivity.
  - apply (proj2 (api_path_concatenation litterbox0 "box-1")). reflexivity.
Defined.

(** ** Refresh *)




(** ** Merging one setting *)

(** C4: a setting call without forced refresh that returns has written the
    one key: the feeder's [put_setting] inside the [settings] sub-mapping,
    every other setting and every other top-level entry being kept; the
    litterbox's [patch_setting] at the top level, every other entry being
    kept. *)
Theorem setting_merge_frame (setting : string) (v : value) (st st' : state) :
  (DeviceSmartFeed.put_setting setting v false st = (Return tt, st') ->
   (exists d s,
      data st = VDict d /\ d !! "settings" = Some (VDict s) /\
      data st' = VDict (<["settings" := VDict (<[setting := v]> s)]> d)) /\
   DeviceSmartFeed.setting_of setting (data st') = Return v /\
   (forall k, k <> setting ->
      DeviceSmartFeed.setting_of k (data st') = DeviceSmartFeed.setting_of k (data st)) /\
   (forall k, k <> "settings" ->
      Py.getitem (data st') k = Py.getitem (data st) k))
  /\
  (DeviceScoopfree.patch_setting setting v false st = (Return tt, st') ->
   (exists d, data st = VDict d /\ data st' = VDict (<[setting := v]> d)) /\
   Py.getitem (data st') setting = Return v /\
   (forall k, k <> setting ->
      Py.getitem (data st') k = Py.getitem (data st) k)).
Proof.
  split.
  - unfold DeviceSmartFeed.put_setting. rewrite read_run.
    destruct (DeviceSmartFeed.api_path (data st)) as [path|e]; [|done].
    unfold api_put. rewrite checked_run. cbn zeta.
    destruct (is_success _); [|done].
    rewrite read_run. cbn [data record].
    unfold setitem_in.
    destruct (data st) as [| | | | | |d] eqn:Hd; try done.
    cbn. destruct (d !! "settings") as [inner|] eqn:Hs; [|done].
    cbn. destruct inner as [| | | | | |s]; try done.
    cbn. unfold assign. intros [= <-]. cbn.
    split; [by exists d, s|].
    unfold DeviceSmartFeed.setting_of. cbn.
    rewrite !lookup_insert_eq. cbn. rewrite lookup_insert_eq.
    split; [done|]. split.
    + intros k Hk. by rewrite lookup_insert_ne.
    + intros k Hk. by rewrite lookup_insert_ne.
  - unfold DeviceScoopfree.patch_setting. rewrite read_run.
    destruct (DeviceScoopfree.api_path (data st)) as [path|e]; [|done].
    unfold api_patch. rewrite checked_run. cbn zeta.
    destruct (is_success _); [|done].
    rewrite read_run. cbn [data record].
    destruct (data st) as [| | | | | |d] eqn:Hd; try done.
    cbn. unfold assign. intros [= <-]. cbn.
    split; [by exists d|]. rewrite lookup_insert_eq. split; [done|].
    intros k Hk. by rewrite lookup_insert_ne.
Qed.

Lemma setting_merge_frame_witness :
  DeviceSmartFeed.setting_of "paused"
    (data (DeviceSmartFeed.put_setting "paused" (VBool true) false
             (proxy 200 None feeder0)).2) = Return (VBool true)
  /\
  Py.getitem
    (data (DeviceScoopfree.patch_setting "paused" (VBool true) false
             (proxy 200 None litterbox0)).2) "paused" = Return (VBool true).
Proof.
  split.
  - refine (proj1 (proj2 (proj1 (setting_merge_frame "paused" (VBool true)
                                   (proxy 200 None feeder0) _) _))).
    vm_compute. reflexivity.
  - refine (proj1 (proj2 (proj2 (setting_merge_frame "paused" (VBool true)
                                   (proxy 200 None litterbox0) _) _))).
    vm_compute. reflexivity.
Defined.

(** ** Property setters *)

(** Awaiting the coroutine of [put_setting] does send the PUT request; the
    setters below build the same coroutine and drop it. *)
Lemma awaited_put_setting_requests :
  trace (DeviceSmartFeed.put_setting "paused" (VBool true) false
           (proxy 200 None feeder0)).2
  = [Request PUT "smart-feed/feeders/feeder-1/settings/paused"
       (Some (VDict {[ "value" := VBool true ]}))].
Proof. vm_compute. reflexivity. Qed.

Lemma trace_not_longer (l : list request) (req : request) (rest : list request) :
  l <> (l ++ req :: rest)%list.
Proof.
  intros H. apply (f_equal length) in H. rewrite length_app in H. cbn in H. lia.
Qed.

Lemma put_setting_trace (setting : string) (v : value) (st : state) (path : string) :
  DeviceSmartFeed.api_path (data st) = Return path ->
  trace (DeviceSmartFeed.put_setting setting v false st).2 =
  (trace st ++ [Request PUT (path +:+ "settings/" +:+ setting)
                  (Some (VDict {[ "value" := v ]}))])%list.
Proof.
  intros Hp. unfold DeviceSmartFeed.put_setting. rewrite read_run, Hp.
  unfold api_put. rewrite checked_run. cbn zeta.
  destruct (is_success _); [|done].
  rewrite read_run. cbn [data record].
  by destruct (setitem_in (data st) "settings" setting v).
Qed.

Lemma patch_setting_trace (setting : string) (v : value) (st : state) (path : string) :
  DeviceScoopfree.api_path (data st) = Return path ->
  trace (DeviceScoopfree.patch_setting setting v false st).2 =
  (trace st ++ [Request PATCH (path +:+ "settings")
                  (Some (VDict {[ setting := v ]}))])%list.
Proof.
  intros Hp. unfold DeviceScoopfree.patch_setting. rewrite read_run, Hp.
  unfold api_patch. rewrite checked_run. cbn zeta.
  destruct (is_success _); [|done].
  rewrite read_run. cbn [data record].
  by destruct (Py.setitem (data st) setting v).
Qed.

(** C10: assigning through a property setter of the feeder (paused,
    slow_feed, child_lock, friendly_name, pet_type) or of the litterbox
    (friendly_name) returns with the state as it was: no request is added to
    the trace and the snapshot is the same.  The cause is that the coroutine
    is dropped: awaited from the same state, the same call of [put_setting]
    or [patch_setting] does send its PUT or PATCH request. *)
Theorem setters_send_nothing (v : value) (st : state) :
  (DeviceSmartFeed.set_paused v st = (Return tt, st) /\
   DeviceSmartFeed.set_slow_feed v st = (Return tt, st) /\
   DeviceSmartFeed.set_child_lock v st = (Return tt, st) /\
   DeviceSmartFeed.set_friendly_name v st = (Return tt, st) /\
   DeviceSmartFeed.set_pet_type v st = (Return tt, st) /\
   DeviceScoopfree.set_friendly_name v st = (Return tt, st))
  /\
  (forall path setting,
     DeviceSmartFeed.api_path (data st) = Return path ->
     trace (DeviceSmartFeed.put_setting setting v false st).2 <> trace st)
  /\
  (forall path setting,
     DeviceScoopfree.api_path (data st) = Return path ->
     trace (DeviceScoopfree.patch_setting setting v false st).2 <> trace st).
Proof.
  split; [repeat split|]. split.
  - intros path setting Hp. rewrite (put_setting_trace setting v st path Hp).
    intros H. symmetry in H. by apply trace_not_longer in H.
  - intros path setting Hp. rewrite (patch_setting_trace setting v st path Hp).
    intros H. symmetry in H. by apply trace_not_longer in H.
Qed.

Lemma setters_send_nothing_witness :
  DeviceSmartFeed.set_paused (VBool true) (proxy 200 None feeder0)
    = (Return tt, proxy 200 None feeder0)
  /\
  trace (DeviceSmartFeed.put_setting "paused" (VBool true) false
           (proxy 200 None feeder0)).2 <> [].
Proof.
  split.
  - exact (proj1 (proj1 (setters_send_nothing (VBool true) (proxy 200 None feeder0)))).
  - apply (proj1 (proj2 (setters_send_nothing (VBool true) (proxy 200 None feeder0)))
             "smart-feed/feeders/feeder-1/" "paused").
    reflexivity.
Defined.

(** ** Failed writes *)

Lemma extends_ret {A} (a : A) : extends (mret a : M A).
Proof. intros st. exists []. by rewrite app_nil_r. Qed.

Lemma extends_lift {A} (o : outcome A) : extends (lift o).
Proof. intros st. exists []. by rewrite app_nil_r. Qed.

Lemma extends_read {A} (f : value -> outcome A) : extends (read f).
Proof. intros st. exists []. by rewrite app_nil_r. Qed.

Lemma extends_assign (v : value) : extends (assign v).
Proof. intros st. exists []. cbn. by rewrite app_nil_r. Qed.

Lemma extends_api (v : verb) (path : string) (payload : option value) :
  extends (api v path payload).
Proof. intros st. by exists [Request v path payload]. Qed.

Lemma extends_bind {A B} (m : M A) (k : A -> M B) :
  extends m -> (forall a, extends (k a)) -> extends (m ≫= k).
Proof.
  intros Hm Hk st. rewrite bind_run.
  destruct (Hm st) as [more Hmore]. destruct (m st) as [[a|e] st1]; cbn in *.
  - destruct (Hk a st1) as [more' Hmore']. exists (more ++ more')%list.
    by rewrite Hmore', Hmore, app_assoc.
  - by exists more.
Qed.

Lemma extends_if {A} (b : bool) (m1 m2 : M A) :
  extends m1 -> extends m2 -> extends (if b then m1 else m2).
Proof. by destruct b. Qed.

Create HintDb extends_db.
#[local] Hint Resolve extends_ret extends_lift extends_read extends_assign
  extends_api extends_bind extends_if : extends_db.

Lemma extends_raise_for_status (r : response) : extends (raise_for_status r).
Proof. apply extends_lift. Qed.

Lemma extends_loads (r : response) : extends (loads r).
Proof. apply extends_lift. Qed.

#[local] Hint Resolve extends_raise_for_status extends_loads : extends_db.

Lemma extends_feeder_update_data : extends DeviceSmartFeed.update_data.
Proof. unfold DeviceSmartFeed.update_data, api_get. auto 10 with extends_db. Qed.

Lemma extends_litterbox_update_data : extends DeviceScoopfree.update_data.
Proof. unfold DeviceScoopfree.update_data, api_get. auto 10 with extends_db. Qed.

#[local] Hint Resolve extends_feeder_update_data extends_litterbox_update_data
  : extends_db.

Lemma extends_refreshed_data (update : bool) :
  extends (DeviceScoopfree.refreshed_data update).
Proof. unfold DeviceScoopfree.refreshed_data. auto 10 with extends_db. Qed.

#[local] Hint Resolve extends_refreshed_data : extends_db.


(** The shape shared by all mutating operations once the path is known: a
    write request, the status check, and the rest. *)
Lemma guarded_request {B} (v : verb) (path : string) (payload : option value)
    (k : response -> M B) :
  v <> GET -> (forall r, extends (k r)) ->
  aborts_on_failure
    (api v path payload ≫= fun response =>
     raise_for_status response ≫= fun _ => k response).
Proof.
  intros Hv Hk st req rest. rewrite checked_run. cbn zeta.
  destruct (is_success (client st (trace st) (Request v path payload))) eqn:Hok.
  - destruct (Hk (client st (trace st) (Request v path payload))
                (record (Request v path payload) st)) as [more Hmore].
    rewrite Hmore. cbn [trace record]. rewrite <- app_assoc. cbn.
    intros [= <- _]%app_inv_head. congruence.
  - cbn. intros [= <- <-]%app_inv_head _. done.
Qed.

(** Reading the snapshot first changes nothing: either the read raises and no
    request is sent, or the operation goes on from the same state. *)
Lemma aborts_after_read {A B} (f : value -> outcome A) (k : A -> M B) :
  (forall a, aborts_on_failure (k a)) -> aborts_on_failure (read f ≫= k).
Proof.
  intros Hk st req rest. rewrite read_run.
  destruct (f (data st)) as [a|e].
  - apply Hk.
  - cbn. intros H. by apply trace_not_longer in H.
Qed.

Lemma aborts_after_ret {A B} (a : A) (k : A -> M B) :
  aborts_on_failure (k a) -> aborts_on_failure (mret a ≫= k).
Proof. intros Hk st req rest. apply Hk. Qed.

Lemma aborts_returns_none (m : M unit) :
  aborts_on_failure m -> aborts_on_failure (returns_none m).
Proof.
  intros Hm st req rest. unfold returns_none. rewrite bind_run.
  specialize (Hm st req rest). destruct (m st) as [[[]|e] st1]; cbn in *.
  - intros H1 H2. by destruct (Hm H1 H2).
  - intros H1 H2. destruct (Hm H1 H2) as ([= ->] & ? & ? & ?). done.
Qed.

Ltac aborts_tac :=
  repeat first
    [ apply aborts_returns_none
    | apply aborts_after_read; intros ?
    | apply aborts_after_ret
    | apply guarded_request; [discriminate | intros ?; auto 10 with extends_db] ].

Lemma perform_aborts (op : mutation) : aborts_on_failure (perform op).
Proof.
  destruct op; cbn [perform];
    unfold DeviceSmartFeed.put_setting, DeviceSmartFeed.feed,
      DeviceSmartFeed.schedule_feed, DeviceSmartFeed.modify_schedule,
      DeviceSmartFeed.delete_schedule, DeviceSmartFeed.delete_all_schedules,
      DeviceSmartFeed.pause_schedules, DeviceScoopfree.patch_setting,
      DeviceScoopfree.rake, DeviceScoopfree.reset, DeviceScoopfree.modify_timer,
      api_post, api_put, api_patch, api_delete;
    try (destruct (Py.is_none slow_feed));
    aborts_tac.
Qed.

(** *** A refusal of any request of the call *)

Lemma silent_ret {A} (a : A) : silent (mret a : M A).
Proof. by intros st. Qed.

Lemma silent_lift {A} (o : outcome A) : silent (lift o).
Proof. by intros st. Qed.

Lemma silent_read {A} (f : value -> outcome A) : silent (read f).
Proof. by intros st. Qed.

Lemma silent_assign (v : value) : silent (assign v).
Proof. by intros st. Qed.

Lemma silent_loads (r : response) : silent (loads r).
Proof. by intros st. Qed.

Lemma silent_bind {A B} (m : M A) (k : A -> M B) :
  silent m -> (forall a, silent (k a)) -> silent (m ≫= k).
Proof.
  intros Hm Hk st. rewrite bind_run. specialize (Hm st).
  destruct (m st) as [[a|e] st1]; cbn in *; [|done]. by rewrite Hk.
Qed.

Create HintDb silent_db.
#[local] Hint Resolve silent_ret silent_lift silent_read silent_assign
  silent_loads silent_bind : silent_db.

Lemma trace_not_longer_app (l pre : list request) (req : request)
    (rest : list request) :
  l <> (l ++ pre ++ req :: rest)%list.
Proof.
  intros H. apply (f_equal length) in H. rewrite !length_app in H. cbn in H. lia.
Qed.

Lemma refusal_silent {A} (m : M A) : silent m -> aborts_on_refusal m.
Proof.
  intros Hm st pre req rest H. rewrite Hm in H.
  by apply trace_not_longer_app in H.
Qed.

Lemma refusal_read {A B} (f : value -> outcome A) (k : A -> M B) :
  (forall a, aborts_on_refusal (k a)) -> aborts_on_refusal (read f ≫= k).
Proof.
  intros Hk st pre req rest. rewrite read_run.
  destruct (f (data st)) as [a|e].
  - apply Hk.
  - cbn. intros H. by apply trace_not_longer_app in H.
Qed.

Lemma refusal_ret {A B} (a : A) (k : A -> M B) :
  aborts_on_refusal (k a) -> aborts_on_refusal (mret a ≫= k).
Proof. intros Hk st pre req rest. apply Hk. Qed.

(** A computation that aborts on a refusal may be followed by one that
    sends nothing. *)
Lemma refusal_then_silent {A B} (m : M A) (k : A -> M B) :
  aborts_on_refusal m -> (forall a, silent (k a)) -> aborts_on_refusal (m ≫= k).
Proof.
  intros Hm Hk st pre req rest. rewrite bind_run.
  specialize (Hm st pre req rest).
  destruct (m st) as [[a|e] st1] eqn:Hst; cbn in *.
  - rewrite Hk. intros H1 H2. by destruct (Hm H1 H2).
  - intros H1 H2. destruct (Hm H1 H2) as ([= ->] & ? & ?). done.
Qed.

(** A request and its status check, followed by a computation that aborts
    on a refusal: the refused request is this one, or one of those that
    follow once this one was accepted. *)
Lemma refusal_checked {B} (v : verb) (path : string) (payload : option value)
    (k : response -> M B) :
  (forall r, extends (k r)) ->
  (forall r, aborts_on_refusal (k r)) ->
  aborts_on_refusal
    (api v path payload ≫= fun response =>
     raise_for_status response ≫= fun _ => k response).
Proof.
  intros Hext Hk st pre req rest. rewrite checked_run. cbn zeta.
  set (r := Request v path payload).
  destruct (is_success (client st (trace st) r)) eqn:Hok.
  - destruct pre as [|r' pre].
    + cbn [app]. rewrite app_nil_r.
      destruct (Hext (client st (trace st) r) (record r st)) as [more Hmore].
      rewrite Hmore. cbn [trace record]. rewrite <- app_assoc. cbn.
      intros [= <- _]%app_inv_head. congruence.
    + intros Ht Hbad.
      destruct (Hext (client st (trace st) r) (record r st)) as [more Hmore].
      assert (r' = r) as ->.
      { rewrite Hmore in Ht. cbn [trace record] in Ht.
        rewrite <- app_assoc in Ht. cbn in Ht.
        by apply app_inv_head in Ht as [= ->]. }
      specialize (Hk (client st (trace st) r) (record r st) pre req rest).
      cbn [trace record client data] in Hk.
      rewrite <- !app_assoc in Hk. cbn [app] in Hk. by apply Hk.
  - cbn [fst snd trace record data].
    destruct pre as [|r' pre].
    + cbn [app]. rewrite app_nil_r. by intros [= <- <-]%app_inv_head _.
    + cbn. intros [= _ H]%app_inv_head. by destruct pre.
Qed.

Lemma refusal_feeder_update_data : aborts_on_refusal DeviceSmartFeed.update_data.
Proof.
  unfold DeviceSmartFeed.update_data, api_get.
  apply refusal_read. intros path.
  apply refusal_checked; intros r.
  - auto with extends_db.
  - apply refusal_silent. auto with silent_db.
Qed.

Lemma refusal_litterbox_update_data : aborts_on_refusal DeviceScoopfree.update_data.
Proof.
  unfold DeviceScoopfree.update_data, api_get.
  apply refusal_read. intros path.
  apply refusal_checked; intros r.
  - auto with extends_db.
  - apply refusal_silent. auto with silent_db.
Qed.

Ltac refusal_tail :=
  first
    [ exact refusal_feeder_update_data
    | exact refusal_litterbox_update_data
    | apply refusal_silent; solve [auto 10 with silent_db]
    | apply refusal_then_silent;
        [refusal_tail | intros ?; solve [auto 10 with silent_db]] ].

Ltac refusal_tac :=
  repeat first
    [ apply refusal_read; intros ?
    | apply refusal_ret
    | apply refusal_checked;
        [ intros ?; solve [auto 10 with extends_db]
        | intros ?; try match goal with |- context [if ?b then _ else _] => destruct b end;
          refusal_tail ] ].

Lemma perform_aborts_on_refusal (op : mutation) : aborts_on_refusal (perform op).
Proof.
  destruct op; cbn [perform]; unfold returns_none;
    try (apply refusal_then_silent; [|intros ?; solve [auto with silent_db]]);
    unfold DeviceSmartFeed.put_setting, DeviceSmartFeed.feed,
      DeviceSmartFeed.schedule_feed, DeviceSmartFeed.modify_schedule,
      DeviceSmartFeed.delete_schedule, DeviceSmartFeed.delete_all_schedules,
      DeviceSmartFeed.pause_schedules, DeviceScoopfree.patch_setting,
      DeviceScoopfree.rake, DeviceScoopfree.reset, DeviceScoopfree.modify_timer,
      DeviceScoopfree.refreshed_data,
      api_post, api_put, api_patch, api_delete;
    try (destruct (Py.is_none slow_feed));
    refusal_tac.
Qed.

(** *** What an operation sends first *)

Lemma begins_checked {B} (v : verb) (path : string) (payload : option value)
    (k : response -> M B) (st : state) :
  v <> GET -> (forall r, extends (k r)) ->
  begins_with
    (api v path payload ≫= fun response =>
     raise_for_status response ≫= fun _ => k response)
    st (Request v path payload).
Proof.
  intros Hv Hk. unfold begins_with. rewrite checked_run. cbn zeta.
  split; [|split; [exact Hv|]].
  - destruct (is_success _).
    + destruct (Hk (client st (trace st) (Request v path payload))
                  (record (Request v path payload) st)) as [more Hmore].
      exists more. rewrite Hmore. cbn [trace record]. by rewrite <- app_assoc.
    + by exists [].
  - by intros ->.
Qed.

Lemma begins_after_read {A B} (f : value -> outcome A) (k : A -> M B)
    (st : state) (a : A) (req : request) :
  f (data st) = Return a -> begins_with (k a) st req ->
  begins_with (read f ≫= k) st req.
Proof. intros Hf. unfold begins_with. by rewrite read_run, Hf. Qed.

Lemma begins_after_ret {A B} (a : A) (k : A -> M B) (st : state)
    (req : request) :
  begins_with (k a) st req -> begins_with (mret a ≫= k) st req.
Proof. done. Qed.

Lemma begins_returns_none (m : M unit) (st : state) (req : request) :
  begins_with m st req -> begins_with (returns_none m) st req.
Proof.
  unfold begins_with, returns_none. rewrite bind_run.
  intros ([rest Ht] & Hv & Hbad). split; [|split; [exact Hv|]].
  - exists rest. by destruct (m st) as [[[]|e] st1].
  - intros H. by rewrite (Hbad H).
Qed.

Ltac begins_tac :=
  repeat first
    [ apply begins_returns_none
    | eapply begins_after_read; [eassumption|]
    | apply begins_checked; [discriminate | intros ?; solve [auto 10 with extends_db]] ].

Lemma perform_begins (op : mutation) (st : state) :
  prepared op (data st) -> exists req, begins_with (perform op) st req.
Proof.
  intros [[path Hp] Hs]. destruct op; cbn [path_of] in Hp; cbn [perform];
    unfold DeviceSmartFeed.put_setting, DeviceSmartFeed.feed,
      DeviceSmartFeed.schedule_feed, DeviceSmartFeed.modify_schedule,
      DeviceSmartFeed.delete_schedule, DeviceSmartFeed.delete_all_schedules,
      DeviceSmartFeed.pause_schedules, DeviceScoopfree.patch_setting,
      DeviceScoopfree.rake, DeviceScoopfree.reset, DeviceScoopfree.modify_timer,
      api_post, api_put, api_patch, api_delete;
    try (eexists; begins_tac; fail).
  destruct (Py.is_none slow_feed) eqn:Hnone.
  - destruct slow_feed; try discriminate.
    destruct (Hs amount update eq_refl) as [v Hv].
    eexists. apply begins_returns_none.
    eapply begins_after_read; [exact Hv|]. begins_tac.
  - eexists. apply begins_returns_none. apply begins_after_ret.
    begins_tac.
Qed.

(** C2: for each mutating operation of the two proxies, whichever of the
    requests it sends is answered with a status outside 200..299, be it the
    write or the refresh that follows an accepted write, the operation
    raises the remote error carrying that status, nothing is sent after that
    request, and the snapshot is the one held before the call; the first
    request is never a GET.  And the operation does send: once the snapshot
    gives the path of the device (and the slow-feed setting, for a feed that
    takes it from there), the first thing the operation does is a write
    request, and when that one is refused the call ends with the remote
    error, in the state it started from but for the trace. *)
Theorem failed_write_keeps_snapshot (op : mutation) (st : state) :
  (forall pre req rest,
     trace (perform op st).2 = (trace st ++ pre ++ req :: rest)%list ->
     is_success (client st (trace st ++ pre)%list req) = false ->
     (perform op st).1 =
       Raise (HTTPStatusError (status_code (client st (trace st ++ pre)%list req))) /\
     data (perform op st).2 = data st /\
     rest = [] /\
     (pre = [] -> req_verb req <> GET))
  /\
  (forall path,
     path_of op (data st) = Return path ->
     (forall amount update,
        op = Feed amount VNone update ->
        exists v, DeviceSmartFeed.slow_feed (data st) = Return v) ->
     exists req rest,
       trace (perform op st).2 = (trace st ++ req :: rest)%list /\
       req_verb req <> GET /\
       (is_success (client st (trace st) req) = false ->
        perform op st =
          (Raise (HTTPStatusError (status_code (client st (trace st) req))),
           record req st))).
Proof.
  split.
  - intros pre req rest Ht Hbad.
    destruct (perform_aborts_on_refusal op st pre req rest Ht Hbad)
      as (Hr & Hd & Hrest).
    repeat split; try done. intros ->. cbn [app] in Ht.
    rewrite app_nil_r in Hbad.
    by destruct (perform_aborts op st req rest Ht Hbad) as (_ & _ & _ & Hv).
  - intros path Hp Hs.
    destruct (perform_begins op st) as (req & [rest Ht] & Hv & Hbad).
    { split; [by exists path|exact Hs]. }
    by exists req, rest.
Qed.

Lemma failed_write_keeps_snapshot_witness :
  ((perform (DeleteAllSchedules true) (proxy 500 None feeder0)).1
     = Raise (HTTPStatusError 500) /\
   data (perform (DeleteAllSchedules true) (proxy 500 None feeder0)).2 = feeder0 /\
   @nil request = [] /\
   (@nil request = [] -> DELETE <> GET))
  /\
  ((perform (PutSetting "paused" (VBool true) true)
      (State (refuses_reads 503) feeder0 [])).1
     = Raise (HTTPStatusError 503) /\
   data (perform (PutSetting "paused" (VBool true) true)
           (State (refuses_reads 503) feeder0 [])).2 = feeder0 /\
   @nil request = [] /\
   ([Request PUT "smart-feed/feeders/feeder-1/settings/paused"
       (Some (VDict {[ "value" := VBool true ]}))] = [] ->
    GET <> GET))
  /\
  (exists req rest,
     trace (perform (Rake true) (proxy 502 None litterbox0)).2
       = ([] ++ req :: rest)%list /\
     req_verb req <> GET /\
     (is_success (answer 502 None [] req) = false ->
      perform (Rake true) (proxy 502 None litterbox0)
        = (Raise (HTTPStatusError (status_code (answer 502 None [] req))),
           record req (proxy 502 None litterbox0)))).
Proof.
  split; [|split].
  - apply (proj1 (failed_write_keeps_snapshot (DeleteAllSchedules true)
                    (proxy 500 None feeder0))
             [] (Request DELETE "smart-feed/feeders/feeder-1/schedules" None) []);
      vm_compute; reflexivity.
  - apply (proj1 (failed_write_keeps_snapshot (PutSetting "paused" (VBool true) true)
                    (State (refuses_reads 503) feeder0 []))
             [Request PUT "smart-feed/feeders/feeder-1/settings/paused"
                (Some (VDict {[ "value" := VBool true ]}))]
             (Request GET "smart-feed/feeders/feeder-1/" None) []);
      vm_compute; reflexivity.
  - apply (proj2 (failed_write_keeps_snapshot (Rake true) (proxy 502 None litterbox0))
             "scoopfree/product/product/box-1/").
    + reflexivity.
    + intros amount update [=].
Defined.

(** ** Feeding *)

Lemma feeder_update_data_trace (st : state) (path : string) :
  DeviceSmartFeed.api_path (data st) = Return path ->
  trace (DeviceSmartFeed.update_data st).2 = (trace st ++ [Request GET path None])%list.
Proof.
  intros Hp. unfold DeviceSmartFeed.update_data. rewrite read_run, Hp.
  unfold api_get. rewrite checked_run. cbn zeta.
  destruct (is_success _); [|done].
  rewrite loads_run. by destruct (loaded _).
Qed.

(** The requests of a call of [feed] whose slow-feed value resolves to [sf]:
    the POST of the meal, then the GET of the refresh when the POST succeeded
    and a refresh was asked for. *)
Lemma feed_trace (amount slow_feed sf : value) (update : bool) (st : state)
    (path : string) :
  DeviceSmartFeed.api_path (data st) = Return path ->
  (if Py.is_none slow_feed then DeviceSmartFeed.slow_feed (data st)
   else Return slow_feed) = Return sf ->
  let post := Request POST (path +:+ "meals")
                (Some (VDict {[ "amount" := amount; "slow_feed" := sf ]})) in
  trace (DeviceSmartFeed.feed amount slow_feed update st).2 =
  (trace st ++ post ::
     (if is_success (client st (trace st) post) && update
      then [Request GET path None] else []))%list.
Proof.
  intros Hp Hsf post. unfold DeviceSmartFeed.feed.
  assert (forall B (k : value -> M B),
    ((if Py.is_none slow_feed
      then read (fun d => settings ← Py.getitem d "settings";
                          Py.getitem settings "slow_feed")
      else mret slow_feed) ≫= k) st = k sf st) as ->.
  { intros B k. destruct (Py.is_none slow_feed).
    - rewrite read_run.
      change (settings ← Py.getitem (data st) "settings";
              Py.getitem settings "slow_feed")
        with (DeviceSmartFeed.slow_feed (data st)).
      by rewrite Hsf.
    - by injection Hsf as ->. }
  rewrite read_run, Hp. unfold api_post. rewrite checked_run. cbn zeta.
  fold post. destruct (is_success (client st (trace st) post)); [|done].
  destruct update; [|done]. cbn [andb].
  rewrite (feeder_update_data_trace _ path) by exact Hp.
  cbn [trace record]. by rewrite <- app_assoc.
Qed.

(** C8: a call of [feed] with no slow-feed value ([None]) sends the value
    stored in the snapshot under settings.slow_feed; with a value, it sends
    that value. *)
Theorem feed_slow_feed_default (amount slow_feed : value) (update : bool)
    (st : state) (path : string) :
  DeviceSmartFeed.api_path (data st) = Return path ->
  (slow_feed = VNone ->
   forall current,
     DeviceSmartFeed.slow_feed (data st) = Return current ->
     exists rest,
       trace (DeviceSmartFeed.feed amount slow_feed update st).2 =
       (trace st ++
        Request POST (path +:+ "meals")
          (Some (VDict {[ "amount" := amount; "slow_feed" := current ]})) :: rest)%list)
  /\
  (slow_feed <> VNone ->
   exists rest,
     trace (DeviceSmartFeed.feed amount slow_feed update st).2 =
     (trace st ++
      Request POST (path +:+ "meals")
        (Some (VDict {[ "amount" := amount; "slow_feed" := slow_feed ]})) :: rest)%list).
Proof.
  intros Hp. split.
  - intros -> current Hc. eexists.
    apply (feed_trace amount VNone current update st path Hp). exact Hc.
  - intros Hne. eexists.
    apply (feed_trace amount slow_feed slow_feed update st path Hp).
    by destruct slow_feed.
Qed.

Lemma feed_slow_feed_default_witness :
  (exists rest,
     trace (DeviceSmartFeed.feed (VInt 1) VNone true
              (proxy 200 (Some feeder0) feeder0)).2 =
     Request POST "smart-feed/feeders/feeder-1/meals"
       (Some (VDict {[ "amount" := VInt 1; "slow_feed" := VBool true ]})) :: rest)
  /\
  (exists rest,
     trace (DeviceSmartFeed.feed (VInt 1) (VBool false) true
              (proxy 200 (Some feeder0) feeder0)).2 =
     Request POST "smart-feed/feeders/feeder-1/meals"
       (Some (VDict {[ "amount" := VInt 1; "slow_feed" := VBool false ]})) :: rest).
Proof.
  split.
  - apply (proj1 (feed_slow_feed_default (VInt 1) VNone true
                    (proxy 200 (Some feeder0) feeder0)
                    "smart-feed/feeders/feeder-1/" eq_refl) eq_refl).
    reflexivity.
  - apply (proj2 (feed_slow_feed_default (VInt 1) (VBool false) true
                    (proxy 200 (Some feeder0) feeder0)
                    "smart-feed/feeders/feeder-1/" eq_refl)).
    discriminate.
Defined.

(** C7: [prime] sends the feed request with amount 5 and slow_feed false,
    whatever the snapshot holds (its settings are not looked at, and may be
    absent); the only other request is the GET of the refresh that follows a
    successful POST. *)
Theorem prime_feed_request (st : state) (path : string) :
  DeviceSmartFeed.api_path (data st) = Return path ->
  let post := Request POST (path +:+ "meals")
                (Some (VDict {[ "amount" := VInt 5; "slow_feed" := VBool false ]})) in
  trace (DeviceSmartFeed.prime st).2 =
    (trace st ++ post ::
       (if is_success (client st (trace st) post)
        then [Request GET path None] else []))%list
  /\
  length (filter (fun r => req_verb r = POST)
            (drop (length (trace st)) (trace (DeviceSmartFeed.prime st).2))) = 1%nat.
Proof.
  intros Hp post. unfold DeviceSmartFeed.prime.
  pose proof (feed_trace (VInt 5) (VBool false) (VBool false) true st path Hp eq_refl)
    as Ht.
  cbn zeta in Ht. fold post in Ht. rewrite andb_true_r in Ht.
  split; [exact Ht|].
  rewrite Ht, drop_app_length.
  by destruct (is_success _).
Qed.

Lemma prime_feed_request_witness :
  trace (DeviceSmartFeed.prime (proxy 200 (Some feeder0) feeder1)).2 =
    [Request POST "smart-feed/feeders/feeder-1/meals"
       (Some (VDict {[ "amount" := VInt 5; "slow_feed" := VBool false ]}));
     Request GET "smart-feed/feeders/feeder-1/" None]
  /\
  length (filter (fun r => req_verb r = POST)
            (drop 0 (trace (DeviceSmartFeed.prime
                              (proxy 200 (Some feeder0) feeder1)).2))) = 1%nat.
Proof.
  apply (prime_feed_request (proxy 200 (Some feeder0) feeder1)
           "smart-feed/feeders/feeder-1/").
  reflexivity.
Defined.

(** ** Repeating the last feeding *)

Lemma first_feed_done_none (items : list value) :
  Forall (fun message =>
            exists t, Py.getitem message "message_type" = Return t /\
                      Py.eq_str t "FEED_DONE" = false) items ->
  DeviceSmartFeed.first_feed_done items = Return VNone.
Proof.
  induction 1 as [|message rest (t & Ht & Hne) _ IH]; [done|].
  cbn. rewrite Ht. cbn. by rewrite Hne.
Qed.

Lemma get_messages_since_run (days : Z) (st : state) (path : string) (body : value) :
  DeviceSmartFeed.api_path (data st) = Return path ->
  let get := Request GET (path +:+ "messages?days=" +:+ Py.str days) None in
  is_success (client st (trace st) get) = true ->
  loaded (client st (trace st) get) = Some body ->
  DeviceSmartFeed.get_messages_since days st = (Return body, record get st).
Proof.
  intros Hp get Hok Hbody. unfold DeviceSmartFeed.get_messages_since.
  rewrite read_run, Hp. unfold api_get. rewrite checked_run. cbn zeta.
  fold get. rewrite Hok. unfold loads, lift. by rewrite Hbody.
Qed.

(** C1, what the code does: when the history of the last 7 days is fetched
    and none of its messages has type FEED_DONE (the empty history included),
    [repeat_feed] raises TypeError, from subscripting the [None] that
    [get_last_feeding] returned; the snapshot is kept and the only request
    sent is the GET of the history, so no feed request is made. *)
Theorem repeat_feed_without_feed_done (st : state) (path : string)
    (body : value) (items : list value) :
  DeviceSmartFeed.api_path (data st) = Return path ->
  let get := Request GET (path +:+ "messages?days=" +:+ Py.str 7) None in
  is_success (client st (trace st) get) = true ->
  loaded (client st (trace st) get) = Some body ->
  Py.iter body = Return items ->
  Forall (fun message =>
            exists t, Py.getitem message "message_type" = Return t /\
                      Py.eq_str t "FEED_DONE" = false) items ->
  DeviceSmartFeed.repeat_feed st = (Raise TypeError, record get st).
Proof.
  intros Hp get Hok Hbody Hiter Hnone.
  unfold DeviceSmartFeed.repeat_feed, DeviceSmartFeed.get_last_feeding.
  rewrite !bind_run.
  rewrite (get_messages_since_run 7 st path body Hp Hok Hbody).
  fold get. unfold lift. rewrite Hiter, bind_run.
  by rewrite (first_feed_done_none items Hnone).
Qed.

Lemma repeat_feed_without_feed_done_witness :
  DeviceSmartFeed.repeat_feed (proxy 200 (Some (VList [])) feeder0) =
  (Raise TypeError,
   State (answer 200 (Some (VList []))) feeder0
     [Request GET "smart-feed/feeders/feeder-1/messages?days=7" None]).
Proof.
  apply (repeat_feed_without_feed_done (proxy 200 (Some (VList [])) feeder0)
           "smart-feed/feeders/feeder-1/" (VList []) []).
  - reflexivity.
  - reflexivity.
  - reflexivity.
  - reflexivity.
  - constructor.
Defined.

(** The same on a history whose only message is not a completed feeding. *)
Example repeat_feed_other_messages :
  (DeviceSmartFeed.repeat_feed
     (proxy 200
        (Some (VList [VDict {[ "message_type" := VStr "FOOD_LOW";
                               "amount" := VInt 2 ]}]))
        feeder0)).1 = Raise TypeError.
Proof. vm_compute. reflexivity. Qed.

(** With a completed feeding in the history the amount is fed again. *)
Example repeat_feed_found :
  trace (DeviceSmartFeed.repeat_feed
     (proxy 200
        (Some (VList [VDict {[ "message_type" := VStr "FEED_DONE";
                               "amount" := VInt 2 ]}]))
        feeder0)).2
  = [Request GET "smart-feed/feeders/feeder-1/messages?days=7" None;
     Request POST "smart-feed/feeders/feeder-1/meals"
       (Some (VDict {[ "amount" := VInt 2; "slow_feed" := VBool true ]}));
     Request GET "smart-feed/feeders/feeder-1/" None].
Proof. vm_compute. reflexivity. Qed.

(** ** Battery *)

(** *** The sign of a rounded quotient *)

Lemma shr_1_nonneg (mrs : shr_record) :
  0 <= shr_m mrs -> 0 <= shr_m (shr_1 mrs).
Proof.
  destruct mrs as [m r s]. destruct m as [|p|p]; cbn; try lia.
  destruct p; cbn; lia.
Qed.

Lemma iter_pos_preserves {A} (P : A -> Prop) (f : A -> A) :
  (forall x, P x -> P (f x)) -> forall p x, P x -> P (SpecFloat.iter_pos f p x).
Proof. intros Hf. induction p; cbn; auto. Qed.

Lemma shr_fexp_nonneg (m e : Z) (l : location) :
  0 <= m -> 0 <= shr_m (shr_fexp Float.prec Float.emax m e l).1.
Proof.
  intros Hm. unfold shr_fexp, shr.
  assert (0 <= shr_m (shr_record_of_loc m l)) as H0.
  { destruct l as [|[]]; exact Hm. }
  destruct (fexp _ _ _ - e); cbn [fst]; try exact H0.
  apply (iter_pos_preserves (fun mrs => 0 <= shr_m mrs)); [|exact H0].
  apply shr_1_nonneg.
Qed.

Lemma round_nearest_even_nonneg (m : Z) (l : location) :
  0 <= m -> 0 <= round_nearest_even m l.
Proof.
  intros Hm. destruct l as [|[]]; cbn; try lia. destruct (Z.even m); lia.
Qed.

(** Rounding a magnitude gives a zero, a finite number or an infinity of the
    sign it was given. *)
Lemma binary_round_aux_sign (sx : bool) (mx ex : Z) (lx : location) :
  0 <= mx ->
  match binary_round_aux Float.prec Float.emax sx mx ex lx with
  | S754_zero s | S754_infinity s | S754_finite s _ _ => s = sx
  | S754_nan => False
  end.
Proof.
  intros Hm. unfold binary_round_aux.
  pose proof (shr_fexp_nonneg mx ex lx Hm) as H1.
  destruct (shr_fexp Float.prec Float.emax mx ex lx) as [mrs' e'].
  cbn [fst] in H1.
  pose proof (shr_fexp_nonneg _ e' loc_Exact
                (round_nearest_even_nonneg _ (loc_of_shr_record mrs') H1)) as H2.
  destruct (shr_fexp Float.prec Float.emax _ e' loc_Exact) as [mrs'' e''].
  cbn [fst] in H2.
  destruct (shr_m mrs'') as [|p|p]; [done| |lia].
  by destruct (e'' <=? _).
Qed.

Lemma of_ratio_sign (s : bool) (a b : Z) :
  b <> 0 ->
  match Float.of_ratio s a b with
  | S754_zero s' | S754_infinity s' | S754_finite s' _ _ => s' = s
  | S754_nan => False
  end.
Proof.
  intros Hb. unfold Float.of_ratio.
  destruct (Z.abs a) as [|ma|ma] eqn:Ha; [done| |lia].
  destruct (Z.abs b) as [|mb|mb] eqn:Hb'; [lia| |lia].
  unfold SFdiv, SFdiv_core_binary.
  set (m' := match _ with Zpos _ => _ | Z0 => _ | Zneg _ => _ end).
  assert (0 <= m') as Hm'.
  { subst m'. destruct (_ - _ - _)%Z; try lia. by apply Z.shiftl_nonneg. }
  pose proof (Z_div_mod m' (Z.pos mb) eq_refl) as Hdiv.
  destruct (Z.div_eucl m' (Z.pos mb)) as [q r].
  rewrite xorb_false_r. apply binary_round_aux_sign. nia.
Qed.

(** A division by a number other than 0 can only raise OverflowError. *)
Lemma truediv_raises (a b : Z) (e : exn) :
  b <> 0 -> Float.truediv a b = Raise e -> e = OverflowError.
Proof.
  intros Hb. unfold Float.truediv.
  destruct (b =? 0) eqn:Hb0; [lia|].
  destruct (Float.of_ratio _ a b); congruence.
Qed.

(** [round(max(a / b, 0))] is 0 when [a <= 0 < b], unless the quotient is too
    large for a float. *)
Lemma round_max0_nonpositive (a b : Z) (q : spec_float) :
  a <= 0 -> 0 < b ->
  Float.truediv a b = Return q ->
  Py.round (Py.max0 q) = Return (VInt 0).
Proof.
  intros Ha Hb. unfold Float.truediv.
  destruct (b =? 0) eqn:Hb0; [lia|].
  pose proof (of_ratio_sign (xorb (a <? 0) (b <? 0)) a b ltac:(lia)) as Hs.
  assert ((b <? 0) = false) as Hpos by lia.
  rewrite Hpos, xorb_false_r in *.
  destruct (Z.eq_dec a 0) as [->|Hne].
  - cbn. by intros [= <-].
  - assert ((a <? 0) = true) as Hneg by lia. rewrite Hneg in *.
    destruct (Float.of_ratio true a b) as [s|s| |s m e];
      [subst s | discriminate | contradiction | subst s];
      intros [= <-]; reflexivity.
Qed.

(** *** The size of a rounded quotient *)

(** A positive number of [d] binary digits lies between 2^(d-1) and 2^d. *)
Lemma Zdigits2_bounds (p : positive) :
  2 ^ (Zdigits2 (Zpos p) - 1) <= Zpos p < 2 ^ Zdigits2 (Zpos p).
Proof.
  cbn [Zdigits2]. induction p as [p IH|p IH|]; cbn [digits2_pos].
  - rewrite Pos2Z.inj_succ.
    replace (Z.succ (Zpos (digits2_pos p)) - 1) with (Z.succ (Zpos (digits2_pos p) - 1)) by lia.
    rewrite !Z.pow_succ_r by lia. lia.
  - rewrite Pos2Z.inj_succ.
    replace (Z.succ (Zpos (digits2_pos p)) - 1) with (Z.succ (Zpos (digits2_pos p) - 1)) by lia.
    rewrite !Z.pow_succ_r by lia. lia.
  - cbn. lia.
Qed.

Lemma Zdigits2_nonneg (m : Z) : 0 <= Zdigits2 m.
Proof. destruct m; cbn; lia. Qed.

Lemma Zdigits2_below (m k : Z) :
  0 <= m -> 0 <= k -> m < 2 ^ k -> Zdigits2 m <= k.
Proof.
  intros Hm Hk Hlt. destruct m as [|p|p]; [cbn; lia| |lia].
  pose proof (Zdigits2_bounds p) as [Hlo _].
  assert (2 ^ (Zdigits2 (Z.pos p) - 1) < 2 ^ k) as H by lia.
  apply Z.pow_lt_mono_r_iff in H; lia.
Qed.

Lemma Zdigits2_above (m : Z) : 0 <= m -> m < 2 ^ Zdigits2 m.
Proof.
  intros Hm. destruct m as [|p|p]; [cbn; lia| |lia]. apply Zdigits2_bounds.
Qed.

Lemma Zdigits2_mono (m n : Z) : 0 <= m <= n -> Zdigits2 m <= Zdigits2 n.
Proof.
  intros H. apply Zdigits2_below; [lia|apply Zdigits2_nonneg|].
  pose proof (Zdigits2_above n). lia.
Qed.

Lemma Zdigits2_succ (m : Z) : 0 <= m -> Zdigits2 (m + 1) <= Zdigits2 m + 1.
Proof.
  intros H. pose proof (Zdigits2_nonneg m).
  apply Zdigits2_below; [lia|lia|].
  rewrite Z.pow_add_r by lia. pose proof (Zdigits2_above m H). lia.
Qed.

Lemma Zdigits2_mul_pow2 (m s : Z) :
  0 <= m -> 0 <= s -> Zdigits2 (m * 2 ^ s) <= Zdigits2 m + s.
Proof.
  intros Hm Hs. pose proof (Zdigits2_nonneg m).
  apply Zdigits2_below; [|lia|].
  - apply Z.mul_nonneg_nonneg; [lia|]. apply Z.pow_nonneg. lia.
  - rewrite Z.pow_add_r by lia.
    apply Z.mul_lt_mono_pos_r; [apply Z.pow_pos_nonneg; lia|].
    by apply Zdigits2_above.
Qed.

Lemma Zdigits2_mul (m n : Z) :
  0 <= m -> 0 <= n -> Zdigits2 (m * n) <= Zdigits2 m + Zdigits2 n.
Proof.
  intros Hm Hn. pose proof (Zdigits2_nonneg m). pose proof (Zdigits2_nonneg n).
  apply Zdigits2_below; [nia|lia|].
  rewrite Z.pow_add_r by lia.
  pose proof (Zdigits2_above m Hm). pose proof (Zdigits2_above n Hn). nia.
Qed.

(** One halving takes one digit away. *)
Lemma shr_1_digits (mrs : shr_record) :
  0 <= shr_m mrs ->
  0 <= shr_m (shr_1 mrs) /\
  Zdigits2 (shr_m (shr_1 mrs)) <= Z.max 0 (Zdigits2 (shr_m mrs) - 1).
Proof.
  destruct mrs as [m r s]. destruct m as [|p|p]; cbn; try lia.
  destruct p; cbn; lia.
Qed.

Lemma iter_pos_count {A} (Q : Z -> A -> Prop) (f : A -> A) :
  (forall k x, Q k x -> Q (k + 1) (f x)) ->
  forall p k x, Q k x -> Q (k + Zpos p) (SpecFloat.iter_pos f p x).
Proof.
  intros Hf. induction p as [p IH|p IH|]; intros k x Hx; cbn [SpecFloat.iter_pos].
  - replace (k + Zpos p~1) with (k + 1 + Zpos p + Zpos p) by lia. auto.
  - replace (k + Zpos p~0) with (k + Zpos p + Zpos p) by lia. auto.
  - auto.
Qed.

(** Aligning a magnitude on the exponent of its format: the exponent that
    results, and the digits that are left. *)
Lemma shr_fexp_digits (m e : Z) (l : location) :
  0 <= m ->
  let r := shr_fexp Float.prec Float.emax m e l in
  r.2 = Z.max e (fexp Float.prec Float.emax (Zdigits2 m + e)) /\
  0 <= shr_m r.1 /\
  Zdigits2 (shr_m r.1) <= Z.max 0 (Zdigits2 m - (r.2 - e)).
Proof.
  intros Hm. unfold shr_fexp, shr.
  assert (shr_m (shr_record_of_loc m l) = m) as H0.
  { by destruct l as [|[]]. }
  destruct (fexp _ _ _ - e) as [|p|p] eqn:Hn; cbn [fst snd].
  - rewrite H0. pose proof (Zdigits2_nonneg m). lia.
  - split; [lia|].
    replace (e + Zpos p - e) with (0 + Zpos p) by lia.
    apply (iter_pos_count
             (fun k mrs => 0 <= shr_m mrs /\
                           Zdigits2 (shr_m mrs) <= Z.max 0 (Zdigits2 m - k))).
    + intros k x [Hx1 Hx2]. pose proof (shr_1_digits x Hx1). lia.
    + rewrite H0. lia.
  - rewrite H0. pose proof (Zdigits2_nonneg m). lia.
Qed.

Lemma round_nearest_even_digits (m : Z) (l : location) :
  0 <= m ->
  0 <= round_nearest_even m l /\
  Zdigits2 (round_nearest_even m l) <= Zdigits2 m + 1.
Proof.
  intros Hm. pose proof (Zdigits2_succ m Hm).
  destruct l as [|[]]; cbn; try destruct (Z.even m); try (split; lia).
Qed.

(** Rounding a magnitude whose exponent and size stay below those of the
    largest float gives a zero or a finite number with at most 53 digits. *)
Lemma binary_round_aux_finite (sx : bool) (mx ex : Z) (lx : location) :
  0 <= mx -> ex <= 970 -> Zdigits2 mx + ex <= 1023 ->
  match binary_round_aux Float.prec Float.emax sx mx ex lx with
  | S754_zero s => s = sx
  | S754_finite s m e =>
      s = sx /\ Zdigits2 (Zpos m) <= 53 /\
      e <= Z.max ex (Z.max (Zdigits2 mx + ex - 53) (-1074)) + 1
  | _ => False
  end.
Proof.
  intros Hm Hex Hd. unfold binary_round_aux.
  pose proof (shr_fexp_digits mx ex lx Hm) as H1. cbv zeta in H1.
  destruct (shr_fexp Float.prec Float.emax mx ex lx) as [mrs' e'].
  cbn [fst snd] in H1. destruct H1 as (He' & Hm' & Hd').
  pose proof (round_nearest_even_digits (shr_m mrs') (loc_of_shr_record mrs') Hm')
    as [Hr Hrd].
  pose proof (shr_fexp_digits _ e' loc_Exact Hr) as H2. cbv zeta in H2.
  destruct (shr_fexp Float.prec Float.emax _ e' loc_Exact) as [mrs'' e''].
  cbn [fst snd] in H2. destruct H2 as (He'' & Hm'' & Hd'').
  assert (e'' <= 1024 - 53 /\ Zdigits2 (shr_m mrs'') <= 53 /\
          e'' <= Z.max ex (Z.max (Zdigits2 mx + ex - 53) (-1074)) + 1)
    as (Hle & Hd53 & Hb).
  { unfold fexp, emin, Float.prec, Float.emax in *.
    generalize dependent (Zdigits2 (shr_m mrs'')).
    generalize dependent (Zdigits2 (round_nearest_even (shr_m mrs')
                                      (loc_of_shr_record mrs'))).
    generalize dependent (Zdigits2 (shr_m mrs')).
    generalize dependent (Zdigits2 mx). intros. lia. }
  apply Z.leb_le in Hle. unfold Float.prec, Float.emax. rewrite Hle.
  destruct (shr_m mrs'') as [|p|p]; [done|done|lia].
Qed.

(** The float nearest to [a / b] is a zero or a finite number as long as
    the dividend is below 2^1023. *)
Lemma of_ratio_finite (s : bool) (a b : Z) :
  b <> 0 -> Z.abs a < 2 ^ 1023 ->
  match Float.of_ratio s a b with
  | S754_zero s' => s' = s
  | S754_finite s' m e =>
      s' = s /\ Zdigits2 (Zpos m) <= 53 /\
      e <= Z.max 0 (Zdigits2 (Z.abs a) - 53) + 1
  | _ => False
  end.
Proof.
  intros Hb Ha. unfold Float.of_ratio.
  destruct (Z.abs a) as [|ma|ma] eqn:Ea; [done| |lia].
  destruct (Z.abs b) as [|mb|mb] eqn:Eb; [lia| |lia].
  unfold SFdiv, SFdiv_core_binary.
  set (d1 := Zdigits2 (Zpos ma)).
  assert (d1 <= 1023) as Hd1 by (apply Zdigits2_below; lia).
  set (e' := Z.min _ (0 - 0)).
  assert (e' <= 0) as He' by lia.
  set (m' := match 0 - 0 - e' with Zpos _ => _ | Z0 => _ | Zneg _ => _ end).
  assert (0 <= m' /\ Zdigits2 m' + e' <= d1) as [Hm' Hdm'].
  { subst m'. destruct (0 - 0 - e') as [|p|p] eqn:Hs.
    - fold d1. lia.
    - rewrite Z.shiftl_mul_pow2 by lia.
      pose proof (Zdigits2_mul_pow2 (Zpos ma) (Zpos p) ltac:(lia) ltac:(lia)).
      fold d1 in H. split; [|lia].
      apply Z.mul_nonneg_nonneg; [lia|]. apply Z.pow_nonneg. lia.
    - lia. }
  pose proof (Z_div_mod m' (Z.pos mb) eq_refl) as Hdiv.
  destruct (Z.div_eucl m' (Z.pos mb)) as [q r].
  assert (0 <= q <= m') as Hq by nia.
  pose proof (Zdigits2_mono q m' Hq) as Hdq.
  rewrite xorb_false_r.
  pose proof (binary_round_aux_finite s q e' (new_location (Zpos mb) r)
                ltac:(lia) ltac:(lia) ltac:(lia)) as H.
  destruct (binary_round_aux _ _ s q e' _); try done.
  destruct H as (-> & Hm & He). split; [done|]. split; [done|].
  fold d1. generalize dependent (Zdigits2 q). intros. lia.
Qed.

(** Within that bound a division of two ints returns. *)
Lemma truediv_returns (a b : Z) :
  b <> 0 -> Z.abs a < 2 ^ 1023 ->
  exists q,
    Float.truediv a b = Return q /\
    match q with
    | S754_zero s => s = xorb (a <? 0) (b <? 0)
    | S754_finite s m e =>
        s = xorb (a <? 0) (b <? 0) /\ Zdigits2 (Zpos m) <= 53 /\
        e <= Z.max 0 (Zdigits2 (Z.abs a) - 53) + 1
    | _ => False
    end.
Proof.
  intros Hb Ha. unfold Float.truediv.
  destruct (b =? 0) eqn:Hb0; [lia|].
  pose proof (of_ratio_finite (xorb (a <? 0) (b <? 0)) a b Hb Ha) as H.
  destruct (Float.of_ratio _ a b) as [s|s| |s m e]; try done; eauto.
Qed.

(** The product of two finite floats is a zero or a finite number as long
    as the exponents leave room for it. *)
Lemma mul_finite (sx sy : bool) (mx my : positive) (ex ey : Z) :
  Zdigits2 (Zpos mx) <= 53 -> Zdigits2 (Zpos my) <= 53 -> ex + ey <= 917 ->
  match Float.mul (S754_finite sx mx ex) (S754_finite sy my ey) with
  | S754_zero s | S754_finite s _ _ => s = xorb sx sy
  | _ => False
  end.
Proof.
  intros Hx Hy He. unfold Float.mul, SFmul.
  pose proof (Zdigits2_mul (Zpos mx) (Zpos my) ltac:(lia) ltac:(lia)) as Hd.
  rewrite <- Pos2Z.inj_mul in Hd.
  pose proof (binary_round_aux_finite (xorb sx sy) (Zpos (mx * my)) (ex + ey)
                loc_Exact ltac:(lia) ltac:(lia)) as H.
  destruct (binary_round_aux _ _ _ _ _ _).
  - apply H. generalize dependent (Zdigits2 (Z.pos (mx * my))). intros. lia.
  - apply H. generalize dependent (Zdigits2 (Z.pos (mx * my))). intros. lia.
  - apply H. generalize dependent (Zdigits2 (Z.pos (mx * my))). intros. lia.
  - apply H. generalize dependent (Zdigits2 (Z.pos (mx * my))). intros. lia.
Qed.

Lemma round_half_even_nonneg (num den : Z) :
  0 <= num -> 0 < den -> 0 <= Float.round_half_even num den.
Proof.
  intros Hn Hd. unfold Float.round_half_even.
  pose proof (Z.div_pos num den Hn Hd).
  destruct (_ ?= _); [destruct (Z.even _)| |]; lia.
Qed.

Lemma round_magnitude_nonneg (m : positive) (e scale : Z) :
  0 <= scale -> 0 <= Float.round_magnitude m e scale.
Proof.
  intros Hs. unfold Float.round_magnitude. destruct (0 <=? e) eqn:He.
  - apply Z.mul_nonneg_nonneg; [lia|]. apply Z.pow_nonneg. lia.
  - apply round_half_even_nonneg; [lia|]. apply Z.pow_pos_nonneg; lia.
Qed.

(** [round(max(q, 0))] is an int that is not negative, for every float [q]
    that is a number. *)
Lemma round_max0_nonneg (q : spec_float) :
  match q with S754_zero _ | S754_finite _ _ _ => True | _ => False end ->
  exists r, Py.round (Py.max0 q) = Return (VInt r) /\ 0 <= r.
Proof.
  destruct q as [s|s| |s m e]; try done; intros _.
  - exists 0. by destruct s.
  - destruct s.
    + exists 0. done.
    + exists (Float.round_magnitude m e 1). split; [done|].
      by apply round_magnitude_nonneg.
Qed.

(** Rounding a float that is not negative to three decimals gives the float
    of a decimal literal with three digits after the point. *)
Lemma round_ndigits_literal (x : spec_float) (ndigits : Z) :
  0 <= ndigits ->
  match x with
  | S754_zero false | S754_finite false _ _ => True
  | _ => False
  end ->
  exists k, 0 <= k /\ Float.round_ndigits x ndigits = Float.literal k ndigits.
Proof.
  intros Hn. destruct x as [[]|s| |[] m e]; try done; intros _.
  - exists 0. done.
  - exists (Float.round_magnitude m e (10 ^ ndigits)).
    assert (0 <= Float.round_magnitude m e (10 ^ ndigits)) as Hk.
    { apply round_magnitude_nonneg. apply Z.pow_nonneg. lia. }
    split; [done|]. unfold Float.round_ndigits, Float.literal.
    by replace (_ <? 0) with false by lia.
Qed.

(** *** Raw readings within the floats *)

Lemma level_dividend_bound (n : Z) :
  Z.abs n <= 10 ^ 300 -> Z.abs (100 * (n - 22755)) < 2 ^ 1023.
Proof.
  intros Hn.
  assert (100 * (10 ^ 300 + 22755) < 2 ^ 1023) as H by reflexivity.
  generalize dependent (10 ^ 300). generalize dependent (2 ^ 1023). intros. lia.
Qed.

Lemma voltage_dividend_bound (n : Z) :
  Z.abs n <= 10 ^ 300 -> Z.abs n < 2 ^ 997.
Proof.
  intros Hn. assert (10 ^ 300 < 2 ^ 997) as H by reflexivity.
  generalize dependent (10 ^ 300). generalize dependent (2 ^ 997). intros. lia.
Qed.

(** Within the bound the level is an int that is not negative. *)
Lemma level_returns (n : Z) :
  Z.abs n <= 10 ^ 300 ->
  exists q r,
    Float.truediv (100 * (n - 22755)) (29100 - 22755) = Return q /\
    Py.round (Py.max0 q) = Return (VInt r) /\ 0 <= r.
Proof.
  intros Hn.
  destruct (truediv_returns (100 * (n - 22755)) (29100 - 22755) ltac:(lia)
              (level_dividend_bound n Hn)) as (q & Hq & Hfin).
  destruct (round_max0_nonneg q) as (r & Hr & Hr0).
  { by destruct q. }
  by exists q, r.
Qed.

(** Within the bound the voltage is computed without error, and for a
    reading that is not negative it has three decimals. *)
Lemma voltage_returns (n : Z) :
  Z.abs n <= 10 ^ 300 ->
  exists q,
    Float.truediv n 32767 = Return q /\
    (0 <= n ->
     exists k, 0 <= k /\
       Float.round_ndigits (Float.mul q (Float.literal 72 1)) 3 = Float.literal k 3).
Proof.
  intros Hn. pose proof (voltage_dividend_bound n Hn) as Hb.
  destruct (truediv_returns n 32767 ltac:(lia)
              ltac:(assert (2 ^ 997 < 2 ^ 1023) by reflexivity; lia))
    as (q & Hq & Hfin).
  exists q. split; [exact Hq|]. intros Hpos.
  apply round_ndigits_literal; [lia|].
  assert ((n <? 0) = false) as Hs by lia. rewrite Hs in Hfin. cbn in Hfin.
  assert (Zdigits2 (Z.abs n) <= 997) as Hd.
  { apply Zdigits2_below; lia. }
  change (Float.literal 72 1)
    with (S754_finite false 8106479329266893 (-50)).
  destruct q as [s|s| |s m e]; try done.
  - by subst s.
  - destruct Hfin as (-> & Hm & He).
    pose proof (mul_finite false false m 8106479329266893 e (-50) Hm
                  ltac:(by vm_compute)) as H.
    destruct (Float.mul _ _) as [s|s| |s m' e'].
    + rewrite H; [done|]. generalize dependent (Zdigits2 (Z.abs n)). intros. lia.
    + apply H. generalize dependent (Zdigits2 (Z.abs n)). intros. lia.
    + apply H. generalize dependent (Zdigits2 (Z.abs n)). intros. lia.
    + rewrite H; [done|]. generalize dependent (Zdigits2 (Z.abs n)). intros. lia.
Qed.

(** *** The level *)

(** On the nominal range of the raw reading, from [minVoltage] to
    [maxVoltage], the float computation gives the integer nearest to
    [100 * (n - 22755) / 6345] (no tie occurs: 6345 is odd). *)
Lemma level_nominal_range_checked :
  forallb
    (fun n =>
       match q ← Float.truediv (100 * (n - 22755)) 6345; Py.round (Py.max0 q) with
       | Return (VInt r) => r =? (200 * (n - 22755) + 6345) / 12690
       | _ => false
       end)
    (seqZ 22755 6346) = true.
Proof. vm_compute. reflexivity. Qed.

Lemma level_nominal_range (n : Z) :
  22755 <= n <= 29100 ->
  (q ← Float.truediv (100 * (n - 22755)) 6345; Py.round (Py.max0 q))
  = Return (VInt ((200 * (n - 22755) + 6345) / 12690)).
Proof.
  intros Hn.
  pose proof (proj1 (forallb_forall _ _) level_nominal_range_checked n) as H.
  cbv beta in H.
  destruct (q ← Float.truediv (100 * (n - 22755)) 6345; Py.round (Py.max0 q))
    as [[]|].
  all: try (discriminate H; apply list_elem_of_In, elem_of_seqZ; lia).
  f_equal. f_equal. apply Z.eqb_eq, H.
  apply list_elem_of_In, elem_of_seqZ. lia.
Qed.

Lemma battery_level_installed (d installed raw : value) (n : Z) :
  Py.getitem d "is_batteries_installed" = Return installed ->
  Py.truth installed = true ->
  Py.getitem d "battery_voltage" = Return raw ->
  Py.int raw = Return n ->
  DeviceSmartFeed.battery_level d =
  (q ← Float.truediv (100 * (n - 22755)) (29100 - 22755); Py.round (Py.max0 q)).
Proof.
  intros Hi Ht Hr Hn. unfold DeviceSmartFeed.battery_level.
  rewrite Hi. cbn. rewrite Ht. cbn. rewrite Hr. cbn. by rewrite Hn.
Qed.

(** C5 as stated fails: it speaks of every snapshot, but with batteries
    installed and a raw voltage of -(10^400) the quotient is too large for a
    float, and [battery_level] raises OverflowError where the claim has the
    result clamped at 0. *)
Lemma battery_level_overflow :
  Py.getitem feeder_overflow "is_batteries_installed" = Return (VBool true) /\
  Py.getitem feeder_overflow "battery_voltage" = Return (VInt (- 10 ^ 400)) /\
  - 10 ^ 400 <= 22755 /\
  DeviceSmartFeed.battery_level feeder_overflow = Raise OverflowError /\
  (forall r, DeviceSmartFeed.battery_level feeder_overflow <> Return r).
Proof.
  assert (DeviceSmartFeed.battery_level feeder_overflow = Raise OverflowError)
    as H by (vm_compute; reflexivity).
  split; [reflexivity|]. split; [reflexivity|].
  split; [by vm_compute|]. split; [exact H|].
  intros r. rewrite H. discriminate.
Qed.

(** C5, amended: [battery_level] is 0 when [is_batteries_installed] is
    false, without the raw voltage being read.  With batteries installed and
    a raw value that converts to the integer [n], it is
    [round(max(100 * (n - 22755) / (29100 - 22755), 0))]; for [n] of
    magnitude up to 10^300 the division returns and the level is an int
    that is not negative: 100 at 29100, 0 at 22755, the nearest integer to
    the exact quotient on the range in between, 0 for every [n] from
    -(10^300) to 22755 (the lower clamp), and above 100 beyond 29100, as 158
    at 32767 shows (no upper clamp).  At -(10^400) the quotient overflows
    the floats and the accessor raises OverflowError. *)
Theorem battery_level_formula (d installed : value) :
  Py.getitem d "is_batteries_installed" = Return installed ->
  (Py.truth installed = false ->
   DeviceSmartFeed.battery_level d = Return (VInt 0))
  /\
  (Py.truth installed = true ->
   forall raw n,
     Py.getitem d "battery_voltage" = Return raw ->
     Py.int raw = Return n ->
     DeviceSmartFeed.battery_level d =
       (q ← Float.truediv (100 * (n - 22755)) (29100 - 22755);
        Py.round (Py.max0 q)) /\
     (Z.abs n <= 10 ^ 300 ->
      exists q r,
        Float.truediv (100 * (n - 22755)) (29100 - 22755) = Return q /\
        Py.round (Py.max0 q) = Return (VInt r) /\
        DeviceSmartFeed.battery_level d = Return (VInt r) /\
        0 <= r) /\
     (n = 29100 -> DeviceSmartFeed.battery_level d = Return (VInt 100)) /\
     (n = 22755 -> DeviceSmartFeed.battery_level d = Return (VInt 0)) /\
     (22755 <= n <= 29100 ->
      DeviceSmartFeed.battery_level d =
        Return (VInt ((200 * (n - 22755) + 6345) / 12690))) /\
     (- 10 ^ 300 <= n <= 22755 ->
      DeviceSmartFeed.battery_level d = Return (VInt 0)) /\
     (n <= 22755 ->
      DeviceSmartFeed.battery_level d = Return (VInt 0) \/
      DeviceSmartFeed.battery_level d = Raise OverflowError) /\
     (n = - 10 ^ 400 ->
      DeviceSmartFeed.battery_level d = Raise OverflowError) /\
     (n = 32767 -> DeviceSmartFeed.battery_level d = Return (VInt 158))).
Proof.
  intros Hi. split.
  - intros Ht. unfold DeviceSmartFeed.battery_level. rewrite Hi. cbn.
    by rewrite Ht.
  - intros Ht raw n Hr Hn.
    rewrite (battery_level_installed d installed raw n Hi Ht Hr Hn).
    assert (n <= 22755 ->
            forall q, Float.truediv (100 * (n - 22755)) (29100 - 22755) = Return q ->
                      Py.round (Py.max0 q) = Return (VInt 0)) as Hclamp.
    { intros Hle q Hq.
      apply (round_max0_nonpositive (100 * (n - 22755)) (29100 - 22755) q);
        [lia | lia | exact Hq]. }
    split; [reflexivity|]. split; [|split; [intros ->; vm_compute; reflexivity|]].
    { intros Hb. destruct (level_returns n Hb) as (q & r & Hq & Hr' & Hr0).
      exists q, r. rewrite Hq. cbn. by rewrite Hr'. }
    split; [intros ->; vm_compute; reflexivity|].
    split; [apply level_nominal_range|].
    split; [|split; [|split; intros ->; vm_compute; reflexivity]].
    + intros [Hlo Hle].
      destruct (level_returns n) as (q & r & Hq & _).
      { assert (22755 <= 10 ^ 300) as Hbig by (by vm_compute).
        generalize dependent (10 ^ 300). intros. lia. }
      rewrite Hq. cbn. by apply Hclamp.
    + intros Hle.
      destruct (Float.truediv (100 * (n - 22755)) (29100 - 22755)) as [q|e] eqn:Hq.
      * left. cbn. by apply Hclamp.
      * right. cbn. f_equal.
        by apply (truediv_raises (100 * (n - 22755)) (29100 - 22755)).
Qed.

Lemma battery_level_formula_witness :
  DeviceSmartFeed.battery_level feeder0 = Return (VInt 100) /\
  DeviceSmartFeed.battery_level feeder1 = Return (VInt 158) /\
  DeviceSmartFeed.battery_level feeder_low = Return (VInt 0) /\
  DeviceSmartFeed.battery_level feeder_unpowered = Return (VInt 0).
Proof.
  split; [|split; [|split]].
  - refine (proj1 (proj2 (proj2 (proj2 (battery_level_formula feeder0 (VBool true) _) _
                            (VStr "29100") 29100 _ _))) _);
      reflexivity.
  - refine (proj2 (proj2 (proj2 (proj2 (proj2 (proj2 (proj2 (proj2
              (proj2 (battery_level_formula feeder1 (VBool true) _) _
                 (VStr "32767") 32767 _ _)))))))) _);
      reflexivity.
  - refine (proj1 (proj2 (proj2 (proj2 (proj2 (proj2
              (proj2 (battery_level_formula feeder_low (VBool true) _) _
                 (VInt 12000) 12000 _ _)))))) _);
      try reflexivity. vm_compute. split; discriminate.
  - refine (proj1 (battery_level_formula feeder_unpowered (VBool false) _) _);
      reflexivity.
Defined.

(** *** The voltage *)

#[local] Arguments Float.truediv : simpl never.

Lemma battery_voltage_converted (d raw : value) (n : Z) :
  Py.getitem d "battery_voltage" = Return raw ->
  Py.int raw = Return n ->
  DeviceSmartFeed.battery_voltage d =
  (q ← Float.truediv n 32767;
   Return (VFloat (Float.round_ndigits (Float.mul q (Float.literal 72 1)) 3))).
Proof.
  intros Hr Hn. unfold DeviceSmartFeed.battery_voltage.
  rewrite Hr. cbn. rewrite Hn. cbn.
  destruct (Float.truediv n 32767) as [q|e] eqn:Hq; cbn; [reflexivity|].
  apply truediv_raises in Hq; [|done]. by subst e.
Qed.

(** C6 as stated fails: a raw value of [None] (JSON null) cannot be
    converted to a number, and the accessor raises TypeError instead of
    returning -1, because only ValueError is caught. *)
Lemma battery_voltage_none_raises :
  Py.getitem feeder_unpowered "battery_voltage" = Return VNone /\
  (forall n, Py.int VNone <> Return n) /\
  DeviceSmartFeed.battery_voltage feeder_unpowered = Raise TypeError /\
  DeviceSmartFeed.battery_voltage feeder_unpowered <> Return (VInt (-1)).
Proof. repeat split; try done. Qed.

(** C6, amended: when the raw value converts with [int()] to the integer
    [n], [battery_voltage] is [round(n / 32767 * 7.2, 3)]: for [n] of
    magnitude up to 10^300 the division returns and the accessor returns
    that float, which for [n >= 0] is the float of a decimal with three
    digits after the point (7.2 at 32767, 6.394 at 29100, 5.0 at 22755,
    2.713 at 12345); when the division overflows the floats, as at 10^400,
    the accessor raises OverflowError.  When [int()] raises ValueError on
    the raw value, as on a string that is not an integer literal, the
    accessor returns the sentinel -1; when [int()] raises TypeError, as on
    [None], so does the accessor. *)
Theorem battery_voltage_formula (d raw : value) :
  Py.getitem d "battery_voltage" = Return raw ->
  (forall n,
     Py.int raw = Return n ->
     DeviceSmartFeed.battery_voltage d =
       (q ← Float.truediv n 32767;
        Return (VFloat (Float.round_ndigits (Float.mul q (Float.literal 72 1)) 3))) /\
     (Z.abs n <= 10 ^ 300 ->
      exists q,
        Float.truediv n 32767 = Return q /\
        DeviceSmartFeed.battery_voltage d =
          Return (VFloat (Float.round_ndigits (Float.mul q (Float.literal 72 1)) 3))) /\
     (0 <= n <= 10 ^ 300 ->
      exists k,
        0 <= k /\
        DeviceSmartFeed.battery_voltage d = Return (VFloat (Float.literal k 3))) /\
     (n = 32767 ->
      DeviceSmartFeed.battery_voltage d = Return (VFloat (Float.literal 72 1))) /\
     (n = 29100 ->
      DeviceSmartFeed.battery_voltage d = Return (VFloat (Float.literal 6394 3))) /\
     (n = 22755 ->
      DeviceSmartFeed.battery_voltage d = Return (VFloat (Float.literal 5 0))) /\
     (n = 12345 ->
      DeviceSmartFeed.battery_voltage d = Return (VFloat (Float.literal 2713 3))) /\
     (forall e,
        Float.truediv n 32767 = Raise e ->
        DeviceSmartFeed.battery_voltage d = Raise OverflowError) /\
     (n = 10 ^ 400 ->
      DeviceSmartFeed.battery_voltage d = Raise OverflowError))
  /\
  (Py.int raw = Raise ValueError ->
   DeviceSmartFeed.battery_voltage d = Return (VInt (-1)))
  /\
  (forall s,
     raw = VStr s -> Py.int_of_string s = None ->
     DeviceSmartFeed.battery_voltage d = Return (VInt (-1)))
  /\
  (Py.int raw = Raise TypeError ->
   DeviceSmartFeed.battery_voltage d = Raise TypeError).
Proof.
  intros Hr.
  assert (forall e, Py.int raw = Raise e ->
            DeviceSmartFeed.battery_voltage d =
            if Py.is_ValueError e then Return (VInt (-1)) else Raise e) as Hraise.
  { intros e He. unfold DeviceSmartFeed.battery_voltage.
    rewrite Hr. cbn. by rewrite He. }
  split; [|split; [|split]].
  - intros n Hn. rewrite (battery_voltage_converted d raw n Hr Hn).
    split; [reflexivity|].
    split; [|split; [|split; [|split; [|split; [|split; [|split]]]]]];
      try (intros ->; vm_compute; reflexivity).
    + intros Hb. destruct (voltage_returns n Hb) as (q & Hq & _).
      exists q. by rewrite Hq.
    + intros [H0 Hb]. destruct (voltage_returns n) as (q & Hq & Hk).
      { generalize dependent (10 ^ 300). intros. lia. }
      destruct (Hk H0) as (k & Hk0 & Hk1).
      exists k. split; [exact Hk0|]. rewrite Hq. cbn. by rewrite Hk1.
    + intros e He. rewrite He. cbn. f_equal.
      by apply (truediv_raises n 32767).
  - intros He. by rewrite (Hraise _ He).
  - intros s -> Hs. rewrite (Hraise ValueError); [done|]. cbn. by rewrite Hs.
  - intros He. by rewrite (Hraise _ He).
Qed.

Lemma battery_voltage_formula_witness :
  DeviceSmartFeed.battery_voltage feeder1 = Return (VFloat (Float.literal 72 1)) /\
  DeviceSmartFeed.battery_voltage feeder0 = Return (VFloat (Float.literal 6394 3)) /\
  DeviceSmartFeed.battery_voltage feeder_huge = Raise OverflowError /\
  DeviceSmartFeed.battery_voltage feeder_unreadable = Return (VInt (-1)) /\
  DeviceSmartFeed.battery_voltage feeder_unpowered = Raise TypeError.
Proof.
  split; [|split; [|split; [|split]]].
  - refine (proj1 (proj2 (proj2 (proj2
              (proj1 (battery_voltage_formula feeder1 (VStr "32767") _) 32767 _)))) _);
      reflexivity.
  - refine (proj1 (proj2 (proj2 (proj2 (proj2
              (proj1 (battery_voltage_formula feeder0 (VStr "29100") _) 29100 _))))) _);
      reflexivity.
  - refine (proj2 (proj2 (proj2 (proj2 (proj2 (proj2 (proj2 (proj2
              (proj1 (battery_voltage_formula feeder_huge (VInt (10 ^ 400)) _)
                 (10 ^ 400) _)))))))) _);
      reflexivity.
  - refine (proj1 (proj2 (battery_voltage_formula feeder_unreadable (VStr "n/a") _)) _);
      reflexivity.
  - refine (proj2 (proj2 (proj2 (battery_voltage_formula feeder_unpowered VNone _))) _);
      reflexivity.
Defined.

(** * Further properties *)

(** ** How many requests a call sends *)

Lemma sends_weaken {A} (P Q : list request -> Prop) (m : M A) :
  (forall l, P l -> Q l) -> sends P m -> sends Q m.
Proof.
  intros HPQ Hm st. destruct (Hm st) as (more & Ht & HP). eauto.
Qed.

Lemma sends_nothing_ret {A} (a : A) : sends no_request (mret a : M A).
Proof. intros st. exists []. by rewrite app_nil_r. Qed.

Lemma sends_nothing_lift {A} (o : outcome A) : sends no_request (lift o).
Proof. intros st. exists []. by rewrite app_nil_r. Qed.

Lemma sends_nothing_read {A} (f : value -> outcome A) : sends no_request (read f).
Proof. intros st. exists []. by rewrite app_nil_r. Qed.

Lemma sends_nothing_assign (v : value) : sends no_request (assign v).
Proof. intros st. exists []. cbn. by rewrite app_nil_r. Qed.

(** Nothing, then [k]. *)
Lemma sends_after_nothing {A B} (P : list request -> Prop) (m : M A) (k : A -> M B) :
  P [] -> sends no_request m -> (forall a, sends P (k a)) -> sends P (m ≫= k).
Proof.
  intros HP Hm Hk st. rewrite bind_run.
  destruct (Hm st) as (more & Ht & ->). rewrite app_nil_r in Ht.
  destruct (m st) as [[a|e] st1]; cbn in *.
  - destruct (Hk a st1) as (more & Ht' & HP'). exists more. by rewrite Ht', Ht.
  - exists []. by rewrite app_nil_r.
Qed.

(** [m], then nothing. *)
Lemma sends_before_nothing {A B} (P : list request -> Prop) (m : M A) (k : A -> M B) :
  sends P m -> (forall a, sends no_request (k a)) -> sends P (m ≫= k).
Proof.
  intros Hm Hk st. rewrite bind_run.
  destruct (Hm st) as (more & Ht & HP).
  destruct (m st) as [[a|e] st1]; cbn in *.
  - destruct (Hk a st1) as (more' & Ht' & ->). exists more.
    by rewrite Ht', Ht, app_nil_r.
  - by exists more.
Qed.

(** A GET, the status check, then nothing. *)
Lemma sends_one_get {B} (path : string) (k : response -> M B) :
  (forall r, sends no_request (k r)) ->
  sends at_most_one_get
    (api_get path ≫= fun response =>
     raise_for_status response ≫= fun _ => k response).
Proof.
  intros Hk st. unfold api_get. rewrite checked_run. cbn zeta.
  exists [Request GET path None].
  split; [|split; [cbn; lia | by repeat constructor]].
  destruct (is_success _); [|done].
  destruct (Hk (client st (trace st) (Request GET path None))
              (record (Request GET path None) st)) as (more & Ht & ->).
  by rewrite Ht, app_nil_r.
Qed.

Lemma at_most_one_get_nil : at_most_one_get [].
Proof. split; [cbn; lia | constructor]. Qed.

Create HintDb sends_db.
#[local] Hint Resolve sends_nothing_ret sends_nothing_lift sends_nothing_read
  sends_nothing_assign at_most_one_get_nil : sends_db.

Lemma sends_nothing_loads (r : response) : sends no_request (loads r).
Proof. apply sends_nothing_lift. Qed.

#[local] Hint Resolve sends_nothing_loads : sends_db.

Lemma sends_nothing_bind {A B} (m : M A) (k : A -> M B) :
  sends no_request m -> (forall a, sends no_request (k a)) ->
  sends no_request (m ≫= k).
Proof. intros. by apply sends_after_nothing. Qed.

#[local] Hint Resolve sends_nothing_bind : sends_db.

Lemma feeder_update_data_one_get : sends at_most_one_get DeviceSmartFeed.update_data.
Proof.
  unfold DeviceSmartFeed.update_data.
  apply sends_after_nothing; [auto with sends_db..|]. intros path.
  apply sends_one_get. auto with sends_db.
Qed.

Lemma litterbox_update_data_one_get : sends at_most_one_get DeviceScoopfree.update_data.
Proof.
  unfold DeviceScoopfree.update_data.
  apply sends_after_nothing; [auto with sends_db..|]. intros path.
  apply sends_one_get. auto with sends_db.
Qed.

Lemma nothing_is_at_most_one_get {A} (m : M A) :
  sends no_request m -> sends at_most_one_get m.
Proof. apply sends_weaken. intros l ->. apply at_most_one_get_nil. Qed.

Lemma sends_if {A} (P : list request -> Prop) (b : bool) (m1 m2 : M A) :
  sends P m1 -> sends P m2 -> sends P (if b then m1 else m2).
Proof. by destruct b. Qed.

#[local] Hint Resolve feeder_update_data_one_get litterbox_update_data_one_get
  nothing_is_at_most_one_get sends_if sends_before_nothing : sends_db.

(** A write, the status check, then at most a refresh. *)
Lemma sends_write {B} (v : verb) (path : string) (payload : option value)
    (k : response -> M B) :
  v <> GET -> (forall r, sends at_most_one_get (k r)) ->
  sends write_then_refresh
    (api v path payload ≫= fun response =>
     raise_for_status response ≫= fun _ => k response).
Proof.
  intros Hv Hk st. rewrite checked_run. cbn zeta.
  destruct (is_success _).
  - destruct (Hk (client st (trace st) (Request v path payload))
                (record (Request v path payload) st)) as (more & Ht & Hmore).
    exists (Request v path payload :: more). split.
    + rewrite Ht. cbn [trace record]. by rewrite <- app_assoc.
    + right. by exists (Request v path payload), more.
  - exists [Request v path payload]. split; [done|].
    right. exists (Request v path payload), []. auto using at_most_one_get_nil.
Qed.

Lemma write_then_refresh_nil : write_then_refresh [].
Proof. by left. Qed.

#[local] Hint Resolve write_then_refresh_nil : sends_db.

Lemma litterbox_refreshed_data_one_get (update : bool) :
  sends at_most_one_get (DeviceScoopfree.refreshed_data update).
Proof. unfold DeviceScoopfree.refreshed_data. auto 10 with sends_db. Qed.

#[local] Hint Resolve litterbox_refreshed_data_one_get : sends_db.

Ltac sends_tac :=
  repeat first
    [ apply sends_write; [discriminate | intros ?; solve [auto 10 with sends_db]]
    | apply sends_after_nothing;
        [solve [auto with sends_db] | solve [auto with sends_db] | intros ?]
    | apply sends_before_nothing; [|intros ?; solve [auto with sends_db]] ].

(** X1: whatever the snapshot and whatever the client answers, a mutating
    operation sends nothing, or one write request (never a GET) followed by
    at most one request, which is then a GET: the refresh. *)
Theorem mutation_sends_write_then_refresh (op : mutation) (st : state) :
  exists more,
    trace (perform op st).2 = (trace st ++ more)%list /\
    (more = [] \/
     exists w rest,
       more = w :: rest /\ req_verb w <> GET /\
       (length rest <= 1)%nat /\ Forall (fun r => req_verb r = GET) rest).
Proof.
  revert st. change (sends write_then_refresh (perform op)).
  destruct op; cbn [perform];
    unfold returns_none, DeviceSmartFeed.put_setting, DeviceSmartFeed.feed,
      DeviceSmartFeed.schedule_feed, DeviceSmartFeed.modify_schedule,
      DeviceSmartFeed.delete_schedule, DeviceSmartFeed.delete_all_schedules,
      DeviceSmartFeed.pause_schedules, DeviceScoopfree.patch_setting,
      DeviceScoopfree.rake, DeviceScoopfree.reset, DeviceScoopfree.modify_timer,
      api_post, api_put, api_patch, api_delete;
    try (destruct (Py.is_none slow_feed));
    sends_tac.
Qed.

(** ** Read-only requests *)

Lemma keeps_ret {A} (a : A) : keeps_proxy (mret a : M A).
Proof. done. Qed.

Lemma keeps_lift {A} (o : outcome A) : keeps_proxy (lift o).
Proof. done. Qed.

Lemma keeps_read {A} (f : value -> outcome A) : keeps_proxy (read f).
Proof. done. Qed.

Lemma keeps_api (v : verb) (path : string) (payload : option value) :
  keeps_proxy (api v path payload).
Proof. done. Qed.

Lemma keeps_bind {A B} (m : M A) (k : A -> M B) :
  keeps_proxy m -> (forall a, keeps_proxy (k a)) -> keeps_proxy (m ≫= k).
Proof.
  intros Hm Hk st. rewrite bind_run. specialize (Hm st).
  destruct (m st) as [[a|e] st1]; cbn in *; [|done].
  destruct (Hk a st1) as [-> ->]. done.
Qed.

Create HintDb keeps_db.
#[local] Hint Resolve keeps_ret keeps_lift keeps_read keeps_api keeps_bind
  : keeps_db.

Lemma keeps_raise_for_status (r : response) : keeps_proxy (raise_for_status r).
Proof. apply keeps_lift. Qed.

Lemma keeps_loads (r : response) : keeps_proxy (loads r).
Proof. apply keeps_lift. Qed.

#[local] Hint Resolve keeps_raise_for_status keeps_loads : keeps_db.

Lemma get_messages_since_one_get (days : Z) :
  sends at_most_one_get (DeviceSmartFeed.get_messages_since days).
Proof.
  unfold DeviceSmartFeed.get_messages_since.
  apply sends_after_nothing; [auto with sends_db..|]. intros path.
  apply sends_one_get. auto with sends_db.
Qed.

(** X2: the four requests for information ([get_messages_since],
    [get_last_feeding], [get_schedules] and [get_activity]) never change the
    snapshot or the client, whether they return or raise, and send at most
    one request, a GET. *)
Theorem queries_are_read_only (days : Z) (st : state) :
  (data (DeviceSmartFeed.get_messages_since days st).2 = data st /\
   data (DeviceSmartFeed.get_last_feeding st).2 = data st /\
   data (DeviceSmartFeed.get_schedules st).2 = data st /\
   data (DeviceScoopfree.get_activity st).2 = data st)
  /\
  (sends at_most_one_get (DeviceSmartFeed.get_messages_since days) /\
   sends at_most_one_get DeviceSmartFeed.get_last_feeding /\
   sends at_most_one_get DeviceSmartFeed.get_schedules /\
   sends at_most_one_get DeviceScoopfree.get_activity).
Proof.
  split.
  - assert (forall n, keeps_proxy (DeviceSmartFeed.get_messages_since n)) as H1.
    { intros n. unfold DeviceSmartFeed.get_messages_since, api_get.
      auto 10 with keeps_db. }
    assert (keeps_proxy DeviceSmartFeed.get_last_feeding) as H2.
    { unfold DeviceSmartFeed.get_last_feeding. auto 10 with keeps_db. }
    assert (keeps_proxy DeviceSmartFeed.get_schedules) as H3.
    { unfold DeviceSmartFeed.get_schedules, api_get. auto 10 with keeps_db. }
    assert (keeps_proxy DeviceScoopfree.get_activity) as H4.
    { unfold DeviceScoopfree.get_activity, api_get. auto 10 with keeps_db. }
    repeat split; [apply H1 | apply H2 | apply H3 | apply H4].
  - repeat split.
    + apply get_messages_since_one_get.
    + unfold DeviceSmartFeed.get_last_feeding.
      apply sends_before_nothing; [apply get_messages_since_one_get|].
      intros ?. auto with sends_db.
    + unfold DeviceSmartFeed.get_schedules.
      apply sends_after_nothing; [auto with sends_db..|]. intros path.
      apply sends_one_get. auto with sends_db.
    + unfold DeviceScoopfree.get_activity.
      apply sends_after_nothing; [auto with sends_db..|]. intros path.
      apply sends_one_get. auto with sends_db.
Qed.

(** ** Finding the last feeding *)

Lemma first_feed_done_skip (pre rest : list value) :
  Forall other_message pre ->
  DeviceSmartFeed.first_feed_done (pre ++ rest) = DeviceSmartFeed.first_feed_done rest.
Proof.
  induction 1 as [|message pre (t & Ht & Hne) _ IH]; [done|].
  cbn. rewrite Ht. cbn. by rewrite Hne.
Qed.

Lemma first_feed_done_returns (items : list value) (m : value) :
  DeviceSmartFeed.first_feed_done items = Return m ->
  (m = VNone /\ Forall other_message items) \/
  (exists pre post,
     items = (pre ++ m :: post)%list /\ Forall other_message pre /\ feed_done m).
Proof.
  induction items as [|message rest IH]; cbn.
  - intros [= <-]. by left.
  - destruct (Py.getitem message "message_type") as [t|e] eqn:Ht; [|done]. cbn.
    destruct (Py.eq_str t "FEED_DONE") eqn:Heq.
    + intros [= <-]. right. exists [], rest. repeat split; [constructor|].
      by exists t.
    + intros H. assert (other_message message) as Hm by (by exists t).
      destruct (IH H) as [[-> Hall]|(pre & post & -> & Hpre & Hdone)].
      * left. by split; [|constructor].
      * right. exists (message :: pre), post. by repeat split; [constructor|].
Qed.

(** What [get_last_feeding] does once the history is fetched. *)
Lemma get_last_feeding_run (st : state) (path : string) (body : value)
    (items : list value) :
  DeviceSmartFeed.api_path (data st) = Return path ->
  let get := Request GET (path +:+ "messages?days=" +:+ Py.str 7) None in
  is_success (client st (trace st) get) = true ->
  loaded (client st (trace st) get) = Some body ->
  Py.iter body = Return items ->
  DeviceSmartFeed.get_last_feeding st =
  (DeviceSmartFeed.first_feed_done items, record get st).
Proof.
  intros Hp get Hok Hbody Hiter. unfold DeviceSmartFeed.get_last_feeding.
  rewrite bind_run, (get_messages_since_run 7 st path body Hp Hok Hbody).
  fold get. rewrite bind_run. unfold lift. by rewrite Hiter.
Qed.

(** X3: when the fetched history is a list, [get_last_feeding] returns the
    first message of type FEED_DONE in the order of the list, whatever comes
    after it, provided every message before it has another type; the
    snapshot is kept. *)
Theorem get_last_feeding_first_match (st : state) (path : string)
    (pre post : list value) (m : value) :
  DeviceSmartFeed.api_path (data st) = Return path ->
  let get := Request GET (path +:+ "messages?days=" +:+ Py.str 7) None in
  is_success (client st (trace st) get) = true ->
  loaded (client st (trace st) get) = Some (VList (pre ++ m :: post)) ->
  Forall other_message pre ->
  feed_done m ->
  DeviceSmartFeed.get_last_feeding st = (Return m, record get st).
Proof.
  intros Hp get Hok Hbody Hpre (t & Ht & Hdone).
  rewrite (get_last_feeding_run st path _ (pre ++ m :: post) Hp Hok Hbody eq_refl).
  fold get. rewrite (first_feed_done_skip pre (m :: post) Hpre).
  cbn. rewrite Ht. cbn. by rewrite Hdone.
Qed.

Lemma get_last_feeding_first_match_witness :
  DeviceSmartFeed.get_last_feeding
    (proxy 200 (Some (VList [msg_food_low; msg_fed 2; msg_untyped; msg_fed 5]))
       feeder0)
  = (Return (msg_fed 2),
     record (Request GET "smart-feed/feeders/feeder-1/messages?days=7" None)
       (proxy 200 (Some (VList [msg_food_low; msg_fed 2; msg_untyped; msg_fed 5]))
          feeder0)).
Proof.
  apply (get_last_feeding_first_match _ "smart-feed/feeders/feeder-1/"
           [msg_food_low] [msg_untyped; msg_fed 5] (msg_fed 2)).
  - reflexivity.
  - reflexivity.
  - reflexivity.
  - constructor; [|constructor]. exists (VStr "FOOD_LOW"). by split.
  - exists (VStr "FEED_DONE"). by split.
Defined.

(** X4: a message that has no readable type stops the search: when every
    message before it has a type other than FEED_DONE, [get_last_feeding]
    raises what reading its type raises (KeyError for a dict without
    "message_type", TypeError for a message that is not a dict), even if a
    completed feeding comes later in the history. *)
Theorem get_last_feeding_untyped_message (st : state) (path : string)
    (pre post : list value) (m : value) (e : exn) :
  DeviceSmartFeed.api_path (data st) = Return path ->
  let get := Request GET (path +:+ "messages?days=" +:+ Py.str 7) None in
  is_success (client st (trace st) get) = true ->
  loaded (client st (trace st) get) = Some (VList (pre ++ m :: post)) ->
  Forall other_message pre ->
  Py.getitem m "message_type" = Raise e ->
  DeviceSmartFeed.get_last_feeding st = (Raise e, record get st).
Proof.
  intros Hp get Hok Hbody Hpre He.
  rewrite (get_last_feeding_run st path _ (pre ++ m :: post) Hp Hok Hbody eq_refl).
  fold get. rewrite (first_feed_done_skip pre (m :: post) Hpre).
  cbn. by rewrite He.
Qed.

Lemma get_last_feeding_untyped_message_witness :
  DeviceSmartFeed.get_last_feeding
    (proxy 200 (Some (VList [msg_food_low; msg_untyped; msg_fed 5])) feeder0)
  = (Raise (KeyError "message_type"),
     record (Request GET "smart-feed/feeders/feeder-1/messages?days=7" None)
       (proxy 200 (Some (VList [msg_food_low; msg_untyped; msg_fed 5])) feeder0)).
Proof.
  apply (get_last_feeding_untyped_message _ "smart-feed/feeders/feeder-1/"
           [msg_food_low] [msg_fed 5] msg_untyped).
  - reflexivity.
  - reflexivity.
  - reflexivity.
  - constructor; [|constructor]. exists (VStr "FOOD_LOW"). by split.
  - reflexivity.
Defined.

(** X5: a result of [get_last_feeding] can be trusted: when it returns [m],
    the history was fetched with success and either [m] is [None] and every
    message of the history has a type other than FEED_DONE, or [m] is a
    message of the history of type FEED_DONE and every message before it has
    another type. *)
Theorem get_last_feeding_result (st st' : state) (m : value) :
  DeviceSmartFeed.get_last_feeding st = (Return m, st') ->
  exists path body items,
    DeviceSmartFeed.api_path (data st) = Return path /\
    let get := Request GET (path +:+ "messages?days=" +:+ Py.str 7) None in
    is_success (client st (trace st) get) = true /\
    loaded (client st (trace st) get) = Some body /\
    Py.iter body = Return items /\
    st' = record get st /\
    ((m = VNone /\ Forall other_message items) \/
     (exists pre post,
        items = (pre ++ m :: post)%list /\ Forall other_message pre /\
        feed_done m)).
Proof.
  unfold DeviceSmartFeed.get_last_feeding, DeviceSmartFeed.get_messages_since.
  rewrite bind_run, read_run.
  destruct (DeviceSmartFeed.api_path (data st)) as [path|e]; [|done].
  unfold api_get. rewrite checked_run. cbn zeta.
  destruct (is_success _) eqn:Hok; [|done].
  unfold loads, lift. destruct (loaded _) as [body|] eqn:Hbody; [|done].
  rewrite bind_run. destruct (Py.iter body) as [items|e] eqn:Hiter; [|done].
  destruct (DeviceSmartFeed.first_feed_done items) as [m'|e] eqn:Hm; [|done].
  intros [= <- <-]. exists path, body, items.
  repeat split; try done. by apply first_feed_done_returns.
Qed.

Lemma get_last_feeding_result_witness :
  exists path body items,
    DeviceSmartFeed.api_path feeder0 = Return path /\
    let get := Request GET (path +:+ "messages?days=" +:+ Py.str 7) None in
    is_success (answer 200 (Some (VList [msg_food_low; msg_fed 2])) [] get) = true /\
    loaded (answer 200 (Some (VList [msg_food_low; msg_fed 2])) [] get) = Some body /\
    Py.iter body = Return items /\
    record (Request GET "smart-feed/feeders/feeder-1/messages?days=7" None)
      (proxy 200 (Some (VList [msg_food_low; msg_fed 2])) feeder0)
    = record get (proxy 200 (Some (VList [msg_food_low; msg_fed 2])) feeder0) /\
    ((msg_fed 2 = VNone /\ Forall other_message items) \/
     (exists pre post,
        items = (pre ++ msg_fed 2 :: post)%list /\ Forall other_message pre /\
        feed_done (msg_fed 2))).
Proof.
  apply (get_last_feeding_result
           (proxy 200 (Some (VList [msg_food_low; msg_fed 2])) feeder0)).
  vm_compute. reflexivity.
Defined.

(** X6: a history that is not a list is not rejected as such: an empty JSON
    object or an empty string is taken for an empty history ([None] is
    returned), and every other body that is not a list makes
    [get_last_feeding] raise TypeError. *)
Theorem get_last_feeding_not_a_list (st : state) (path : string) (body : value) :
  DeviceSmartFeed.api_path (data st) = Return path ->
  let get := Request GET (path +:+ "messages?days=" +:+ Py.str 7) None in
  is_success (client st (trace st) get) = true ->
  loaded (client st (trace st) get) = Some body ->
  (forall l, body <> VList l) ->
  (body = VDict ∅ \/ body = VStr "" ->
   DeviceSmartFeed.get_last_feeding st = (Return VNone, record get st)) /\
  (body <> VDict ∅ -> body <> VStr "" ->
   DeviceSmartFeed.get_last_feeding st = (Raise TypeError, record get st)).
Proof.
  intros Hp get Hok Hbody Hnot.
  assert (forall o, (o = Py.iter body) ->
    DeviceSmartFeed.get_last_feeding st =
      (o ≫= DeviceSmartFeed.first_feed_done, record get st)) as Hrun.
  { intros o ->. unfold DeviceSmartFeed.get_last_feeding.
    rewrite bind_run, (get_messages_since_run 7 st path body Hp Hok Hbody).
    fold get. rewrite bind_run. unfold lift.
    by destruct (Py.iter body). }
  rewrite (Hrun _ eq_refl). split.
  - by intros [-> | ->].
  - intros Hd Hs. f_equal.
    destruct body as [| | | |s|l|d]; try done.
    + destruct s as [|c s]; [done|]. reflexivity.
    + by destruct (Hnot l).
    + cbn. destruct (map_to_list d) as [|[k v] rest] eqn:Hl; [|done].
      apply map_to_list_empty_iff in Hl. by subst d.
Qed.

Lemma get_last_feeding_not_a_list_witness :
  DeviceSmartFeed.get_last_feeding
    (proxy 200 (Some (VDict {[ "error" := VStr "busy" ]})) feeder0)
  = (Raise TypeError,
     record (Request GET "smart-feed/feeders/feeder-1/messages?days=7" None)
       (proxy 200 (Some (VDict {[ "error" := VStr "busy" ]})) feeder0)).
Proof.
  refine (proj2 (get_last_feeding_not_a_list
                   (proxy 200 (Some (VDict {[ "error" := VStr "busy" ]})) feeder0)
                   "smart-feed/feeders/feeder-1/"
                   (VDict {[ "error" := VStr "busy" ]}) _ _ _ _) _ _);
    try reflexivity; discriminate.
Defined.

(** ** Repeating a feeding that is found *)

Lemma first_feed_done_found (pre post : list value) (m : value) :
  Forall other_message pre -> feed_done m ->
  DeviceSmartFeed.first_feed_done (pre ++ m :: post) = Return m.
Proof.
  intros Hpre (t & Ht & Hdone). rewrite (first_feed_done_skip pre _ Hpre).
  cbn. rewrite Ht. cbn. by rewrite Hdone.
Qed.

(** [repeat_feed] once the last feeding is found. *)
Lemma repeat_feed_run (st : state) (path : string) (pre post : list value)
    (m : value) :
  DeviceSmartFeed.api_path (data st) = Return path ->
  let get := Request GET (path +:+ "messages?days=" +:+ Py.str 7) None in
  is_success (client st (trace st) get) = true ->
  loaded (client st (trace st) get) = Some (VList (pre ++ m :: post)) ->
  Forall other_message pre ->
  feed_done m ->
  DeviceSmartFeed.repeat_feed st =
  match Py.getitem m "amount" with
  | Return amount => DeviceSmartFeed.feed amount VNone true (record get st)
  | Raise e => (Raise e, record get st)
  end.
Proof.
  intros Hp get Hok Hbody Hpre Hdone. unfold DeviceSmartFeed.repeat_feed.
  rewrite bind_run.
  rewrite (get_last_feeding_run st path _ (pre ++ m :: post) Hp Hok Hbody eq_refl).
  fold get. rewrite (first_feed_done_found pre post m Hpre Hdone).
  rewrite bind_run. unfold lift. by destruct (Py.getitem m "amount").
Qed.

(** X7: when the history holds a completed feeding, [repeat_feed] fetches
    the history, then posts a meal with the amount recorded in the first
    such message and the slow-feed setting of the snapshot, then refreshes
    if the POST succeeded; it sends nothing else. *)
Theorem repeat_feed_repeats_amount (st : state) (path : string)
    (pre post : list value) (m amount current : value) :
  DeviceSmartFeed.api_path (data st) = Return path ->
  let get := Request GET (path +:+ "messages?days=" +:+ Py.str 7) None in
  is_success (client st (trace st) get) = true ->
  loaded (client st (trace st) get) = Some (VList (pre ++ m :: post)) ->
  Forall other_message pre ->
  feed_done m ->
  Py.getitem m "amount" = Return amount ->
  DeviceSmartFeed.slow_feed (data st) = Return current ->
  let meal := Request POST (path +:+ "meals")
                (Some (VDict {[ "amount" := amount; "slow_feed" := current ]})) in
  trace (DeviceSmartFeed.repeat_feed st).2 =
  (trace st ++ get :: meal ::
     (if is_success (client st (trace st ++ [get]) meal)
      then [Request GET path None] else []))%list.
Proof.
  intros Hp get Hok Hbody Hpre Hdone Hamount Hslow meal.
  rewrite (repeat_feed_run st path pre post m Hp Hok Hbody Hpre Hdone), Hamount.
  fold get.
  rewrite (feed_trace amount VNone current true (record get st) path Hp Hslow).
  cbn [trace record client]. fold meal. rewrite andb_true_r.
  by rewrite <- app_assoc.
Qed.

Lemma repeat_feed_repeats_amount_witness :
  trace (DeviceSmartFeed.repeat_feed
           (proxy 200 (Some (VList [msg_food_low; msg_fed 2; msg_fed 5])) feeder0)).2
  = [Request GET "smart-feed/feeders/feeder-1/messages?days=7" None;
     Request POST "smart-feed/feeders/feeder-1/meals"
       (Some (VDict {[ "amount" := VInt 2; "slow_feed" := VBool true ]}));
     Request GET "smart-feed/feeders/feeder-1/" None].
Proof.
  apply (repeat_feed_repeats_amount
           (proxy 200 (Some (VList [msg_food_low; msg_fed 2; msg_fed 5])) feeder0)
           "smart-feed/feeders/feeder-1/" [msg_food_low] [msg_fed 5] (msg_fed 2)
           (VInt 2) (VBool true)).
  - reflexivity.
  - reflexivity.
  - reflexivity.
  - constructor; [|constructor]. exists (VStr "FOOD_LOW"). by split.
  - exists (VStr "FEED_DONE"). by split.
  - reflexivity.
  - reflexivity.
Defined.

(** X8: when the completed feeding that is found records no amount (or is
    not a dict with one), [repeat_feed] raises what reading the amount
    raises, after the GET of the history only: no meal is posted and the
    snapshot is kept. *)
Theorem repeat_feed_without_amount (st : state) (path : string)
    (pre post : list value) (m : value) (e : exn) :
  DeviceSmartFeed.api_path (data st) = Return path ->
  let get := Request GET (path +:+ "messages?days=" +:+ Py.str 7) None in
  is_success (client st (trace st) get) = true ->
  loaded (client st (trace st) get) = Some (VList (pre ++ m :: post)) ->
  Forall other_message pre ->
  feed_done m ->
  Py.getitem m "amount" = Raise e ->
  DeviceSmartFeed.repeat_feed st = (Raise e, record get st).
Proof.
  intros Hp get Hok Hbody Hpre Hdone Hamount.
  by rewrite (repeat_feed_run st path pre post m Hp Hok Hbody Hpre Hdone), Hamount.
Qed.

Lemma repeat_feed_without_amount_witness :
  DeviceSmartFeed.repeat_feed
    (proxy 200 (Some (VList [VDict {[ "message_type" := VStr "FEED_DONE" ]}]))
       feeder0)
  = (Raise (KeyError "amount"),
     record (Request GET "smart-feed/feeders/feeder-1/messages?days=7" None)
       (proxy 200 (Some (VList [VDict {[ "message_type" := VStr "FEED_DONE" ]}]))
          feeder0)).
Proof.
  apply (repeat_feed_without_amount _ "smart-feed/feeders/feeder-1/" [] []
           (VDict {[ "message_type" := VStr "FEED_DONE" ]})).
  - reflexivity.
  - reflexivity.
  - reflexivity.
  - constructor.
  - exists (VStr "FEED_DONE"). by split.
  - reflexivity.
Defined.

(** ** Refreshing *)

(** The complete behaviour of a refresh, given the path property. *)
Lemma refresh_cases (api_path : value -> outcome string) (st : state) :
  (read api_path ≫= fun path =>
   api_get path ≫= fun response =>
   raise_for_status response ≫= fun _ =>
   loads response ≫= fun v => assign v) st =
  match api_path (data st) with
  | Raise e => (Raise e, st)
  | Return path =>
      let get := Request GET path None in
      let response := client st (trace st) get in
      if is_success response then
        match loaded response with
        | Some v => (Return tt, set_data v (record get st))
        | None => (Raise JSONDecodeError, record get st)
        end
      else (Raise (HTTPStatusError (status_code response)), record get st)
  end.
Proof.
  rewrite read_run. destruct (api_path (data st)) as [path|e]; [|done].
  unfold api_get. rewrite checked_run. cbn zeta.
  destruct (is_success _); [|done].
  rewrite loads_run. by destruct (loaded _).
Qed.

(** X9: a refresh that raises, for whatever reason (no name in the snapshot,
    a status outside 200..299, a body that is not JSON), leaves the snapshot
    and the client as they were, for the feeder and for the litterbox. *)
Theorem failed_refresh_keeps_snapshot (st st' : state) (e : exn) :
  (DeviceSmartFeed.update_data st = (Raise e, st') ->
   data st' = data st /\ client st' = client st)
  /\
  (DeviceScoopfree.update_data st = (Raise e, st') ->
   data st' = data st /\ client st' = client st).
Proof.
  split.
  - unfold DeviceSmartFeed.update_data. rewrite refresh_cases.
    destruct (DeviceSmartFeed.api_path (data st)); [|by intros [= _ <-]].
    cbn zeta. destruct (is_success _); [|by intros [= _ <-]].
    destruct (loaded _); [done|by intros [= _ <-]].
  - unfold DeviceScoopfree.update_data. rewrite refresh_cases.
    destruct (DeviceScoopfree.api_path (data st)); [|by intros [= _ <-]].
    cbn zeta. destruct (is_success _); [|by intros [= _ <-]].
    destruct (loaded _); [done|by intros [= _ <-]].
Qed.

Lemma failed_refresh_keeps_snapshot_witness :
  data (DeviceSmartFeed.update_data (proxy 200 None feeder0)).2 = feeder0 /\
  client (DeviceSmartFeed.update_data (proxy 200 None feeder0)).2 = answer 200 None.
Proof.
  apply (proj1 (failed_refresh_keeps_snapshot (proxy 200 None feeder0)
                  (DeviceSmartFeed.update_data (proxy 200 None feeder0)).2
                  JSONDecodeError)).
  reflexivity.
Defined.

(** X10: with [force_update], a setting call that returns has replaced the
    snapshot by the body of the GET that follows the write: the value
    written is not merged locally, the snapshot shows what the server
    answered.  The requests are the write and that GET. *)
Theorem forced_update_replaces_snapshot (setting : string) (v : value)
    (st st' : state) :
  (DeviceSmartFeed.put_setting setting v true st = (Return tt, st') ->
   exists path,
     DeviceSmartFeed.api_path (data st) = Return path /\
     let put := Request PUT (path +:+ "settings/" +:+ setting)
                  (Some (VDict {[ "value" := v ]})) in
     let get := Request GET path None in
     trace st' = (trace st ++ [put; get])%list /\
     loaded (client st (trace st ++ [put])%list get) = Some (data st'))
  /\
  (DeviceScoopfree.patch_setting setting v true st = (Return tt, st') ->
   exists path,
     DeviceScoopfree.api_path (data st) = Return path /\
     let patch := Request PATCH (path +:+ "settings")
                    (Some (VDict {[ setting := v ]})) in
     let get := Request GET path None in
     trace st' = (trace st ++ [patch; get])%list /\
     loaded (client st (trace st ++ [patch])%list get) = Some (data st')).
Proof.
  split.
  - unfold DeviceSmartFeed.put_setting. rewrite read_run.
    destruct (DeviceSmartFeed.api_path (data st)) as [path|] eqn:Hp; [|done].
    unfold api_put. rewrite checked_run. cbn zeta.
    destruct (is_success _); [|done].
    unfold DeviceSmartFeed.update_data. rewrite refresh_cases.
    cbn [data record trace client]. rewrite Hp. cbn zeta.
    destruct (is_success _); [|done].
    destruct (loaded _) eqn:Hv; [|done].
    intros [= <-]. exists path. cbn. by rewrite <- app_assoc.
  - unfold DeviceScoopfree.patch_setting. rewrite read_run.
    destruct (DeviceScoopfree.api_path (data st)) as [path|] eqn:Hp; [|done].
    unfold api_patch. rewrite checked_run. cbn zeta.
    destruct (is_success _); [|done].
    unfold DeviceScoopfree.update_data. rewrite refresh_cases.
    cbn [data record trace client]. rewrite Hp. cbn zeta.
    destruct (is_success _); [|done].
    destruct (loaded _) eqn:Hv; [|done].
    intros [= <-]. exists path. cbn. by rewrite <- app_assoc.
Qed.

Lemma forced_update_replaces_snapshot_witness :
  exists path,
    DeviceSmartFeed.api_path feeder0 = Return path /\
    let put := Request PUT (path +:+ "settings/" +:+ "paused")
                 (Some (VDict {[ "value" := VBool true ]})) in
    let get := Request GET path None in
    trace (DeviceSmartFeed.put_setting "paused" (VBool true) true
             (proxy 200 (Some feeder1) feeder0)).2 = ([] ++ [put; get])%list /\
    loaded (answer 200 (Some feeder1) ([] ++ [put])%list get)
    = Some (data (DeviceSmartFeed.put_setting "paused" (VBool true) true
                    (proxy 200 (Some feeder1) feeder0)).2).
Proof.
  apply (proj1 (forced_update_replaces_snapshot "paused" (VBool true)
                  (proxy 200 (Some feeder1) feeder0)
                  (DeviceSmartFeed.put_setting "paused" (VBool true) true
                     (proxy 200 (Some feeder1) feeder0)).2)).
  vm_compute. reflexivity.
Defined.

(** ** What the commands return *)

Lemma feeder_update_data_ok (st : state) (path : string) (body : value) :
  DeviceSmartFeed.api_path (data st) = Return path ->
  is_success (client st (trace st) (Request GET path None)) = true ->
  loaded (client st (trace st) (Request GET path None)) = Some body ->
  DeviceSmartFeed.update_data st =
  (Return tt, set_data body (record (Request GET path None) st)).
Proof.
  intros Hp Hok Hbody. unfold DeviceSmartFeed.update_data.
  rewrite refresh_cases, Hp. cbn zeta. by rewrite Hok, Hbody.
Qed.

Lemma litterbox_update_data_ok (st : state) (path : string) (body : value) :
  DeviceScoopfree.api_path (data st) = Return path ->
  is_success (client st (trace st) (Request GET path None)) = true ->
  loaded (client st (trace st) (Request GET path None)) = Some body ->
  DeviceScoopfree.update_data st =
  (Return tt, set_data body (record (Request GET path None) st)).
Proof.
  intros Hp Hok Hbody. unfold DeviceScoopfree.update_data.
  rewrite refresh_cases, Hp. cbn zeta. by rewrite Hok, Hbody.
Qed.

(** X11: [schedule_feed] returns the parsed body of the answer to its POST
    (the identifier of the new schedule), or raises the decoding error when
    that body is not JSON.  With [update_data] the refresh comes first: the
    snapshot is then the body of the GET in both cases, so a call that
    raises on the POST body has still refreshed the snapshot. *)
Theorem schedule_feed_result (time amount : value) (st : state) (path : string) :
  DeviceSmartFeed.api_path (data st) = Return path ->
  let post := Request POST (path +:+ "schedules")
                (Some (VDict {[ "time" := time; "amount" := amount ]})) in
  let created :=
    match loaded (client st (trace st) post) with
    | Some v => Return v
    | None => Raise JSONDecodeError
    end in
  is_success (client st (trace st) post) = true ->
  DeviceSmartFeed.schedule_feed time amount false st = (created, record post st)
  /\
  (forall body,
     let get := Request GET path None in
     is_success (client st (trace st ++ [post])%list get) = true ->
     loaded (client st (trace st ++ [post])%list get) = Some body ->
     DeviceSmartFeed.schedule_feed time amount true st =
     (created, set_data body (record get (record post st)))).
Proof.
  intros Hp post created Hok. split.
  - unfold DeviceSmartFeed.schedule_feed. rewrite read_run, Hp.
    unfold api_post. rewrite checked_run. cbn zeta. fold post. rewrite Hok.
    rewrite bind_run. cbn. unfold loads, lift. subst created.
    by destruct (loaded _).
  - intros body get Hgok Hbody.
    unfold DeviceSmartFeed.schedule_feed. rewrite read_run, Hp.
    unfold api_post. rewrite checked_run. cbn zeta. fold post. rewrite Hok.
    rewrite bind_run.
    rewrite (feeder_update_data_ok (record post st) path body Hp Hgok Hbody).
    unfold loads, lift. subst created. by destruct (loaded _).
Qed.

Lemma schedule_feed_result_witness :
  DeviceSmartFeed.schedule_feed (VStr "07:30") (VInt 2) false
    (proxy 200 (Some (VDict {[ "id" := VInt 541233 ]})) feeder0)
  = (Return (VDict {[ "id" := VInt 541233 ]}),
     record (Request POST "smart-feed/feeders/feeder-1/schedules"
               (Some (VDict {[ "time" := VStr "07:30"; "amount" := VInt 2 ]})))
       (proxy 200 (Some (VDict {[ "id" := VInt 541233 ]})) feeder0))
  /\
  DeviceSmartFeed.schedule_feed (VStr "07:30") (VInt 2) true
    (State (replies (Some feeder1) None) feeder0 [])
  = (Raise JSONDecodeError,
     State (replies (Some feeder1) None) feeder1
       [Request POST "smart-feed/feeders/feeder-1/schedules"
          (Some (VDict {[ "time" := VStr "07:30"; "amount" := VInt 2 ]}));
        Request GET "smart-feed/feeders/feeder-1/" None]).
Proof.
  split.
  - apply (proj1 (schedule_feed_result (VStr "07:30") (VInt 2)
                    (proxy 200 (Some (VDict {[ "id" := VInt 541233 ]})) feeder0)
                    "smart-feed/feeders/feeder-1/" eq_refl eq_refl)).
  - apply (proj2 (schedule_feed_result (VStr "07:30") (VInt 2)
                    (State (replies (Some feeder1) None) feeder0 [])
                    "smart-feed/feeders/feeder-1/" eq_refl eq_refl) feeder1);
      reflexivity.
Defined.

(** The shape shared by [rake], [reset] and [modify_timer]. *)
Lemma litterbox_command_run (v : verb) (suffix : string) (payload : option value)
    (st : state) (path : string) :
  DeviceScoopfree.api_path (data st) = Return path ->
  let w := Request v (path +:+ suffix) payload in
  is_success (client st (trace st) w) = true ->
  (forall update,
     update = false ->
     (read DeviceScoopfree.api_path ≫= fun path =>
      api v (path +:+ suffix) payload ≫= fun response =>
      raise_for_status response ≫= fun _ =>
      DeviceScoopfree.refreshed_data update) st = (Return VNone, record w st))
  /\
  (forall body,
     let get := Request GET path None in
     is_success (client st (trace st ++ [w])%list get) = true ->
     loaded (client st (trace st ++ [w])%list get) = Some body ->
     (read DeviceScoopfree.api_path ≫= fun path =>
      api v (path +:+ suffix) payload ≫= fun response =>
      raise_for_status response ≫= fun _ =>
      DeviceScoopfree.refreshed_data true) st =
     (Py.getitem body "data", set_data body (record get (record w st)))).
Proof.
  intros Hp w Hok. split.
  - intros update ->. rewrite read_run, Hp, checked_run. cbn zeta. fold w.
    by rewrite Hok.
  - intros body get Hgok Hbody. rewrite read_run, Hp, checked_run. cbn zeta.
    fold w. rewrite Hok. unfold DeviceScoopfree.refreshed_data.
    rewrite bind_run.
    rewrite (litterbox_update_data_ok (record w st) path body Hp Hgok Hbody).
    unfold read. cbn. by destruct (body).
Qed.

(** X12: the litterbox commands [rake], [reset] and [modify_timer] whose
    write succeeds return [None] and keep the snapshot when no refresh is
    asked for; with a refresh that succeeds, the snapshot is the body of the
    GET and the result is that body's "data" entry.  When the body has no
    "data" entry the call raises KeyError, with the snapshot replaced all the
    same. *)
Theorem litterbox_command_result (rakeCount rakeDelayTime : value)
    (st : state) (path : string) (w : request) :
  DeviceScoopfree.api_path (data st) = Return path ->
  is_success (client st (trace st) w) = true ->
  let get := Request GET path None in
  let refreshed body := (Py.getitem body "data", set_data body (record get (record w st))) in
  (w = Request POST (path +:+ "rake-now") (Some (VDict ∅)) ->
   DeviceScoopfree.rake false st = (Return VNone, record w st) /\
   forall body,
     is_success (client st (trace st ++ [w])%list get) = true ->
     loaded (client st (trace st ++ [w])%list get) = Some body ->
     DeviceScoopfree.rake true st = refreshed body)
  /\
  (w = Request PATCH (path +:+ "shadow")
         (Some (VDict {[ "rakeCount" := rakeCount ]})) ->
   DeviceScoopfree.reset rakeCount false st = (Return VNone, record w st) /\
   forall body,
     is_success (client st (trace st ++ [w])%list get) = true ->
     loaded (client st (trace st ++ [w])%list get) = Some body ->
     DeviceScoopfree.reset rakeCount true st = refreshed body)
  /\
  (w = Request PATCH (path +:+ "shadow")
         (Some (VDict {[ "rakeDelayTime" := rakeDelayTime ]})) ->
   DeviceScoopfree.modify_timer rakeDelayTime false st = (Return VNone, record w st) /\
   forall body,
     is_success (client st (trace st ++ [w])%list get) = true ->
     loaded (client st (trace st ++ [w])%list get) = Some body ->
     DeviceScoopfree.modify_timer rakeDelayTime true st = refreshed body).
Proof.
  intros Hp Hok get refreshed.
  split; [|split]; intros ->.
  - destruct (litterbox_command_run POST "rake-now" (Some (VDict ∅)) st path Hp Hok)
      as [H1 H2].
    split; [by apply H1 | apply H2].
  - destruct (litterbox_command_run PATCH "shadow"
                (Some (VDict {[ "rakeCount" := rakeCount ]})) st path Hp Hok)
      as [H1 H2].
    split; [by apply H1 | apply H2].
  - destruct (litterbox_command_run PATCH "shadow"
                (Some (VDict {[ "rakeDelayTime" := rakeDelayTime ]})) st path Hp Hok)
      as [H1 H2].
    split; [by apply H1 | apply H2].
Qed.

Lemma litterbox_command_result_witness :
  DeviceScoopfree.rake true (State (replies (Some litterbox1) None) litterbox0 [])
  = (Return (VDict {[ "rakeCount" := VInt 0 ]}),
     State (replies (Some litterbox1) None) litterbox1
       [Request POST "scoopfree/product/product/box-1/rake-now" (Some (VDict ∅));
        Request GET "scoopfree/product/product/box-1/" None])
  /\
  DeviceScoopfree.reset (VInt 0) true
    (State (replies (Some litterbox0) None) litterbox1 [])
  = (Raise (KeyError "data"),
     State (replies (Some litterbox0) None) litterbox0
       [Request PATCH "scoopfree/product/product/box-1/shadow"
          (Some (VDict {[ "rakeCount" := VInt 0 ]}));
        Request GET "scoopfree/product/product/box-1/" None]).
Proof.
  split.
  - refine (proj2 (proj1 (litterbox_command_result (VInt 0) (VInt 15)
              (State (replies (Some litterbox1) None) litterbox0 [])
              "scoopfree/product/product/box-1/"
              (Request POST "scoopfree/product/product/box-1/rake-now"
                 (Some (VDict ∅))) _ _) _) litterbox1 _ _);
      reflexivity.
  - refine (proj2 (proj1 (proj2 (litterbox_command_result (VInt 0) (VInt 15)
              (State (replies (Some litterbox0) None) litterbox1 [])
              "scoopfree/product/product/box-1/"
              (Request PATCH "scoopfree/product/product/box-1/shadow"
                 (Some (VDict {[ "rakeCount" := VInt 0 ]}))) _ _)) _) litterbox0 _ _);
      reflexivity.
Defined.

(** ** Calls without refresh *)

(** X13: an operation other than the two setting calls, called without
    refresh, never changes the snapshot or the client, whatever the client
    answers and whether the call returns or raises. *)
Theorem no_refresh_keeps_snapshot (op : mutation) (st : state) :
  touches_snapshot op = false ->
  data (perform op st).2 = data st /\ client (perform op st).2 = client st.
Proof.
  intros Hop. revert st. change (keeps_proxy (perform op)).
  destruct op; cbn in Hop; try discriminate; subst; cbn [perform];
    unfold returns_none, DeviceSmartFeed.feed,
      DeviceSmartFeed.schedule_feed, DeviceSmartFeed.modify_schedule,
      DeviceSmartFeed.delete_schedule, DeviceSmartFeed.delete_all_schedules,
      DeviceSmartFeed.pause_schedules, DeviceScoopfree.rake,
      DeviceScoopfree.reset, DeviceScoopfree.modify_timer,
      DeviceScoopfree.refreshed_data,
      api_post, api_put, api_patch, api_delete;
    try (destruct (Py.is_none slow_feed));
    auto 12 with keeps_db.
Qed.

Lemma no_refresh_keeps_snapshot_witness :
  data (perform (Feed (VInt 1) VNone false) (proxy 200 (Some feeder1) feeder0)).2
    = feeder0 /\
  client (perform (Feed (VInt 1) VNone false) (proxy 200 (Some feeder1) feeder0)).2
    = answer 200 (Some feeder1).
Proof.
  apply (no_refresh_keeps_snapshot (Feed (VInt 1) VNone false)
           (proxy 200 (Some feeder1) feeder0)).
  reflexivity.
Defined.

(** A merge that goes well. *)
Lemma put_setting_merge_run (setting : string) (v : value) (st : state)
    (path : string) (d s : gmap string value) :
  DeviceSmartFeed.api_path (data st) = Return path ->
  let put := Request PUT (path +:+ "settings/" +:+ setting)
               (Some (VDict {[ "value" := v ]})) in
  is_success (client st (trace st) put) = true ->
  data st = VDict d ->
  d !! "settings" = Some (VDict s) ->
  DeviceSmartFeed.put_setting setting v false st =
  (Return tt,
   set_data (VDict (<["settings" := VDict (<[setting := v]> s)]> d)) (record put st)).
Proof.
  intros Hp put Hok Hd Hs. unfold DeviceSmartFeed.put_setting.
  rewrite read_run, Hp. unfold api_put. rewrite checked_run. cbn zeta.
  fold put. rewrite Hok, read_run. cbn [data record]. rewrite Hd.
  unfold setitem_in. cbn. rewrite Hs. reflexivity.
Qed.

(** X14: [pause_schedules] without refresh sends exactly the request that
    [put_setting] sends for "paused", but, unlike it, records nothing: the
    [paused] property read afterwards is the one from before the call,
    whereas after [put_setting] it is the value written. *)
Theorem pause_schedules_does_not_merge (v : value) (st : state) (path : string)
    (d s : gmap string value) :
  DeviceSmartFeed.api_path (data st) = Return path ->
  is_success (client st (trace st)
                (Request PUT (path +:+ "settings/paused")
                   (Some (VDict {[ "value" := v ]})))) = true ->
  data st = VDict d ->
  d !! "settings" = Some (VDict s) ->
  trace (DeviceSmartFeed.pause_schedules v false st).2 =
    trace (DeviceSmartFeed.put_setting "paused" v false st).2 /\
  DeviceSmartFeed.paused (data (DeviceSmartFeed.pause_schedules v false st).2) =
    DeviceSmartFeed.paused (data st) /\
  DeviceSmartFeed.paused (data (DeviceSmartFeed.put_setting "paused" v false st).2) =
    Return v.
Proof.
  intros Hp Hok Hd Hs.
  rewrite (put_setting_merge_run "paused" v st path d s Hp Hok Hd Hs).
  unfold DeviceSmartFeed.pause_schedules. rewrite read_run, Hp.
  unfold api_put. rewrite checked_run. cbn zeta. rewrite Hok. cbn [fst snd].
  split; [reflexivity|]. split; [reflexivity|].
  unfold DeviceSmartFeed.paused, DeviceSmartFeed.setting_of. cbn.
  rewrite lookup_insert_eq. cbn. by rewrite lookup_insert_eq.
Qed.

Lemma pause_schedules_does_not_merge_witness :
  trace (DeviceSmartFeed.pause_schedules (VBool true) false
           (proxy 200 None feeder0)).2 =
    trace (DeviceSmartFeed.put_setting "paused" (VBool true) false
             (proxy 200 None feeder0)).2 /\
  DeviceSmartFeed.paused
    (data (DeviceSmartFeed.pause_schedules (VBool true) false
             (proxy 200 None feeder0)).2) =
    DeviceSmartFeed.paused feeder0 /\
  DeviceSmartFeed.paused
    (data (DeviceSmartFeed.put_setting "paused" (VBool true) false
             (proxy 200 None feeder0)).2) =
    Return (VBool true).
Proof.
  eapply (pause_schedules_does_not_merge (VBool true) (proxy 200 None feeder0)
            "smart-feed/feeders/feeder-1/");
    reflexivity.
Defined.

(** ** A snapshot without identity *)

Lemma perform_without_path (op : mutation) (st : state) (e : exn) :
  path_of op (data st) = Raise e ->
  (perform op st).2 = st /\ exists e', (perform op st).1 = Raise e'.
Proof.
  intros Hp.
  assert (forall B (k : string -> M B),
            (read (path_of op) ≫= k) st = (Raise e, st)) as Hgen.
  { intros B k. by rewrite read_run, Hp. }
  destruct op; cbn [perform path_of] in *;
    unfold returns_none, DeviceSmartFeed.put_setting,
      DeviceSmartFeed.schedule_feed, DeviceSmartFeed.modify_schedule,
      DeviceSmartFeed.delete_schedule, DeviceSmartFeed.delete_all_schedules,
      DeviceSmartFeed.pause_schedules, DeviceScoopfree.patch_setting,
      DeviceScoopfree.rake, DeviceScoopfree.reset, DeviceScoopfree.modify_timer;
    try (first [rewrite Hgen | rewrite bind_run, Hgen]; cbn; by eauto).
  (* feed: the slow-feed setting is read before the path *)
  unfold DeviceSmartFeed.feed. rewrite bind_run.
  destruct (Py.is_none slow_feed).
  - rewrite read_run.
    destruct (Py.getitem (data st) "settings" ≫= _) as [sf|e0]; [|cbn; eauto].
    rewrite Hgen. cbn. eauto.
  - rewrite bind_run. cbn [mret M_ret]. rewrite Hgen. cbn. eauto.
Qed.

(** X15: when the snapshot does not give the API path (no name, or a name
    that is not a string), a mutating operation raises without sending
    anything: the whole state, trace included, is as before the call. *)
Theorem no_path_no_request (op : mutation) (st : state) (e : exn) :
  path_of op (data st) = Raise e ->
  (perform op st).2 = st /\ exists e', (perform op st).1 = Raise e'.
Proof. apply perform_without_path. Qed.

Lemma no_path_no_request_witness :
  (perform (Feed (VInt 1) (VBool false) true) (proxy 200 None litterbox0)).2
    = proxy 200 None litterbox0 /\
  exists e', (perform (Feed (VInt 1) (VBool false) true)
                (proxy 200 None litterbox0)).1 = Raise e'.
Proof.
  apply (no_path_no_request (Feed (VInt 1) (VBool false) true)
           (proxy 200 None litterbox0) (KeyError "thing_name")).
  reflexivity.
Defined.

(** ** Successive merges *)

Lemma put_setting_returns (setting : string) (v : value) (st st' : state) :
  DeviceSmartFeed.put_setting setting v false st = (Return tt, st') ->
  exists path d s,
    DeviceSmartFeed.api_path (data st) = Return path /\
    data st = VDict d /\ d !! "settings" = Some (VDict s) /\
    st' = set_data (VDict (<["settings" := VDict (<[setting := v]> s)]> d))
            (record (Request PUT (path +:+ "settings/" +:+ setting)
                       (Some (VDict {[ "value" := v ]}))) st).
Proof.
  unfold DeviceSmartFeed.put_setting. rewrite read_run.
  destruct (DeviceSmartFeed.api_path (data st)) as [path|e]; [|done].
  unfold api_put. rewrite checked_run. cbn zeta.
  destruct (is_success _); [|done].
  rewrite read_run. cbn [data record]. unfold setitem_in.
  destruct (data st) as [| | | | | |d] eqn:Hd; try done.
  cbn. destruct (d !! "settings") as [inner|] eqn:Hs; [|done].
  cbn. destruct inner as [| | | | | |s]; try done.
  cbn. unfold assign. intros [= <-]. by exists path, d, s.
Qed.

Lemma patch_setting_returns (setting : string) (v : value) (st st' : state) :
  DeviceScoopfree.patch_setting setting v false st = (Return tt, st') ->
  exists path d,
    DeviceScoopfree.api_path (data st) = Return path /\
    data st = VDict d /\
    st' = set_data (VDict (<[setting := v]> d))
            (record (Request PATCH (path +:+ "settings")
                       (Some (VDict {[ setting := v ]}))) st).
Proof.
  unfold DeviceScoopfree.patch_setting. rewrite read_run.
  destruct (DeviceScoopfree.api_path (data st)) as [path|e]; [|done].
  unfold api_patch. rewrite checked_run. cbn zeta.
  destruct (is_success _); [|done].
  rewrite read_run. cbn [data record].
  destruct (data st) as [| | | | | |d] eqn:Hd; try done.
  cbn. unfold assign. intros [= <-]. by exists path, d.
Qed.

(** X16: for merged settings the last write wins: writing [v1] and then
    [v2] to the same setting leaves the snapshot that writing [v2] alone
    leaves, on the feeder and on the litterbox.  In particular writing the
    same value twice changes nothing the second time. *)
Theorem setting_last_write_wins (setting : string) (v1 v2 : value)
    (st st1 st2 st2' : state) :
  (DeviceSmartFeed.put_setting setting v1 false st = (Return tt, st1) ->
   DeviceSmartFeed.put_setting setting v2 false st1 = (Return tt, st2) ->
   DeviceSmartFeed.put_setting setting v2 false st = (Return tt, st2') ->
   data st2 = data st2')
  /\
  (DeviceScoopfree.patch_setting setting v1 false st = (Return tt, st1) ->
   DeviceScoopfree.patch_setting setting v2 false st1 = (Return tt, st2) ->
   DeviceScoopfree.patch_setting setting v2 false st = (Return tt, st2') ->
   data st2 = data st2').
Proof.
  split.
  - intros (p1 & d & s & _ & Hd & Hs & ->)%put_setting_returns
           (p2 & d1 & s1 & _ & Hd1 & Hs1 & ->)%put_setting_returns
           (p3 & d' & s' & _ & Hd' & Hs' & ->)%put_setting_returns.
    cbn in *. rewrite Hd in Hd'. injection Hd' as <-.
    rewrite Hs in Hs'. injection Hs' as <-.
    injection Hd1 as <-. rewrite lookup_insert_eq in Hs1. injection Hs1 as <-.
    by rewrite !insert_insert_eq.
  - intros (p1 & d & _ & Hd & ->)%patch_setting_returns
           (p2 & d1 & _ & Hd1 & ->)%patch_setting_returns
           (p3 & d' & _ & Hd' & ->)%patch_setting_returns.
    cbn in *. rewrite Hd in Hd'. injection Hd' as <-.
    injection Hd1 as <-. by rewrite insert_insert_eq.
Qed.

(** X17: merges of two different settings commute: the snapshot after
    writing [k1] then [k2] is the snapshot after writing [k2] then [k1], on
    the feeder and on the litterbox. *)
Theorem setting_merges_commute (k1 k2 : string) (v1 v2 : value)
    (st a1 a2 b1 b2 : state) :
  k1 <> k2 ->
  (DeviceSmartFeed.put_setting k1 v1 false st = (Return tt, a1) ->
   DeviceSmartFeed.put_setting k2 v2 false a1 = (Return tt, a2) ->
   DeviceSmartFeed.put_setting k2 v2 false st = (Return tt, b1) ->
   DeviceSmartFeed.put_setting k1 v1 false b1 = (Return tt, b2) ->
   data a2 = data b2)
  /\
  (DeviceScoopfree.patch_setting k1 v1 false st = (Return tt, a1) ->
   DeviceScoopfree.patch_setting k2 v2 false a1 = (Return tt, a2) ->
   DeviceScoopfree.patch_setting k2 v2 false st = (Return tt, b1) ->
   DeviceScoopfree.patch_setting k1 v1 false b1 = (Return tt, b2) ->
   data a2 = data b2).
Proof.
  intros Hk. split.
  - intros (? & d & s & _ & Hd & Hs & ->)%put_setting_returns
           (? & da & sa & _ & Hda & Hsa & ->)%put_setting_returns
           (? & d' & s' & _ & Hd' & Hs' & ->)%put_setting_returns
           (? & db & sb & _ & Hdb & Hsb & ->)%put_setting_returns.
    cbn in *. rewrite Hd in Hd'. injection Hd' as <-.
    rewrite Hs in Hs'. injection Hs' as <-.
    injection Hda as <-. rewrite lookup_insert_eq in Hsa. injection Hsa as <-.
    injection Hdb as <-. rewrite lookup_insert_eq in Hsb. injection Hsb as <-.
    rewrite !insert_insert_eq. do 2 f_equal. f_equal. by apply insert_insert_ne.
  - intros (? & d & _ & Hd & ->)%patch_setting_returns
           (? & da & _ & Hda & ->)%patch_setting_returns
           (? & d' & _ & Hd' & ->)%patch_setting_returns
           (? & db & _ & Hdb & ->)%patch_setting_returns.
    cbn in *. rewrite Hd in Hd'. injection Hd' as <-.
    injection Hda as <-. injection Hdb as <-.
    f_equal. by apply insert_insert_ne.
Qed.

Lemma setting_last_write_wins_witness :
  data (DeviceSmartFeed.put_setting "paused" (VBool false) false
          (DeviceSmartFeed.put_setting "paused" (VBool true) false
             (proxy 200 None feeder0)).2).2
  = data (DeviceSmartFeed.put_setting "paused" (VBool false) false
            (proxy 200 None feeder0)).2.
Proof.
  apply (proj1 (setting_last_write_wins "paused" (VBool true) (VBool false)
                  (proxy 200 None feeder0)
                  (DeviceSmartFeed.put_setting "paused" (VBool true) false
                     (proxy 200 None feeder0)).2 _ _));
    vm_compute; reflexivity.
Defined.

Lemma setting_merges_commute_witness :
  data (DeviceSmartFeed.put_setting "child_lock" (VBool true) false
          (DeviceSmartFeed.put_setting "paused" (VBool true) false
             (proxy 200 None feeder0)).2).2
  = data (DeviceSmartFeed.put_setting "paused" (VBool true) false
            (DeviceSmartFeed.put_setting "child_lock" (VBool true) false
               (proxy 200 None feeder0)).2).2.
Proof.
  refine (proj1 (setting_merges_commute "paused" "child_lock" (VBool true) (VBool true)
                   (proxy 200 None feeder0)
                   (DeviceSmartFeed.put_setting "paused" (VBool true) false
                      (proxy 200 None feeder0)).2 _
                   (DeviceSmartFeed.put_setting "child_lock" (VBool true) false
                      (proxy 200 None feeder0)).2 _ _) _ _ _ _);
    first [discriminate | vm_compute; reflexivity].
Defined.

(** ** The identity across merges *)

(** X18: a merged setting never changes the feeder's path: after a
    [put_setting] without refresh that returns, [api_path] is what it was.
    On the litterbox, where settings are written at the top level, the same
    holds for every setting except "thingName" itself: writing that one
    makes the written value the name the next requests are built from. *)
Theorem merge_and_identity (setting : string) (v : value) (st st' : state) :
  (DeviceSmartFeed.put_setting setting v false st = (Return tt, st') ->
   DeviceSmartFeed.api_path (data st') = DeviceSmartFeed.api_path (data st))
  /\
  (DeviceScoopfree.patch_setting setting v false st = (Return tt, st') ->
   (setting <> "thingName" ->
    DeviceScoopfree.api_path (data st') = DeviceScoopfree.api_path (data st)) /\
   (setting = "thingName" ->
    DeviceScoopfree.api_name (data st') = Return v)).
Proof.
  split.
  - intros (path & d & s & _ & Hd & Hs & ->)%put_setting_returns.
    cbn [data set_data]. rewrite Hd.
    unfold DeviceSmartFeed.api_path, DeviceSmartFeed.api_name. cbn.
    by rewrite lookup_insert_ne.
  - intros (path & d & _ & Hd & ->)%patch_setting_returns.
    cbn [data set_data]. rewrite Hd.
    unfold DeviceScoopfree.api_path, DeviceScoopfree.api_name. cbn. split.
    + intros Hne. by rewrite lookup_insert_ne.
    + intros ->. by rewrite lookup_insert_eq.
Qed.

Lemma merge_and_identity_witness :
  DeviceSmartFeed.api_path
    (data (DeviceSmartFeed.put_setting "thing_name" (VStr "other") false
             (proxy 200 None feeder0)).2)
  = DeviceSmartFeed.api_path feeder0
  /\
  DeviceScoopfree.api_name
    (data (DeviceScoopfree.patch_setting "thingName" (VStr "other") false
             (proxy 200 None litterbox0)).2)
  = Return (VStr "other").
Proof.
  split.
  - apply (proj1 (merge_and_identity "thing_name" (VStr "other")
                    (proxy 200 None feeder0) _)).
    vm_compute. reflexivity.
  - refine (proj2 (proj2 (merge_and_identity "thingName" (VStr "other")
                            (proxy 200 None litterbox0) _) _) _).
    + vm_compute. reflexivity.
    + reflexivity.
Defined.

(** X19: a slow-feed setting merged by [put_setting] is the one the next
    [feed] without a slow-feed argument sends: after
    [put_setting("slow_feed", v)] without refresh, the meal posted by
    [feed(amount)] carries [v], whatever [v] is (a stored [None] is sent
    as it is). *)
Theorem merged_slow_feed_is_fed (v amount : value) (update : bool)
    (st st1 : state) :
  DeviceSmartFeed.put_setting "slow_feed" v false st = (Return tt, st1) ->
  exists path rest,
    DeviceSmartFeed.api_path (data st) = Return path /\
    trace (DeviceSmartFeed.feed amount VNone update st1).2 =
    (trace st1 ++
     Request POST (path +:+ "meals")
       (Some (VDict {[ "amount" := amount; "slow_feed" := v ]})) :: rest)%list.
Proof.
  intros (path & d & s & Hp & Hd & Hs & ->)%put_setting_returns.
  exists path. eexists. split; [exact Hp|].
  apply (feed_trace amount VNone v update).
  - cbn [data set_data]. revert Hp. rewrite Hd.
    unfold DeviceSmartFeed.api_path, DeviceSmartFeed.api_name. cbn.
    by rewrite lookup_insert_ne.
  - cbn. rewrite lookup_insert_eq. cbn. by rewrite lookup_insert_eq.
Qed.

Lemma merged_slow_feed_is_fed_witness :
  exists path rest,
    DeviceSmartFeed.api_path feeder0 = Return path /\
    trace (DeviceSmartFeed.feed (VInt 1) VNone false
             (DeviceSmartFeed.put_setting "slow_feed" (VBool false) false
                (proxy 200 None feeder0)).2).2 =
    (trace (DeviceSmartFeed.put_setting "slow_feed" (VBool false) false
              (proxy 200 None feeder0)).2 ++
     Request POST (path +:+ "meals")
       (Some (VDict {[ "amount" := VInt 1; "slow_feed" := VBool false ]})) :: rest)%list.
Proof.
  apply (merged_slow_feed_is_fed (VBool false) (VInt 1) false
           (proxy 200 None feeder0)).
  vm_compute. reflexivity.
Defined.

(** ** More on the battery accessors *)

Lemma int_raises (o : value) (e : exn) :
  Py.int o = Raise e -> e = TypeError \/ e = ValueError \/ e = OverflowError.
Proof.
  destruct o as [| | |f|s| |]; cbn; try (intros [= <-]; auto); try done.
  - destruct f; cbn; intros [= <-]; auto.
  - destruct (Py.int_of_string s); [done|]. intros [= <-]. auto.
Qed.

Lemma getitem_raises (o : value) (k : string) (e : exn) :
  Py.getitem o k = Raise e -> e = KeyError k \/ e = TypeError.
Proof.
  destruct o as [| | | | | |d]; cbn; try (intros [= <-]; auto).
  destruct (d !! k); [done|]. intros [= <-]. auto.
Qed.

(** X20: the two battery accessors treat a voltage that does not convert
    differently: with batteries installed, [battery_level] raises whatever
    [int()] raises on the raw value, ValueError included, where
    [battery_voltage] turns the ValueError into -1. *)
Theorem battery_level_propagates_errors (d installed raw : value) (e : exn) :
  Py.getitem d "is_batteries_installed" = Return installed ->
  Py.truth installed = true ->
  Py.getitem d "battery_voltage" = Return raw ->
  Py.int raw = Raise e ->
  DeviceSmartFeed.battery_level d = Raise e /\
  (e = ValueError -> DeviceSmartFeed.battery_voltage d = Return (VInt (-1))).
Proof.
  intros Hi Ht Hr He. split.
  - unfold DeviceSmartFeed.battery_level. rewrite Hi. cbn. rewrite Ht. cbn.
    rewrite Hr. cbn. by rewrite He.
  - intros ->. unfold DeviceSmartFeed.battery_voltage. rewrite Hr. cbn.
    by rewrite He.
Qed.

Lemma battery_level_propagates_errors_witness :
  DeviceSmartFeed.battery_level feeder_unreadable = Raise ValueError /\
  (ValueError = ValueError ->
   DeviceSmartFeed.battery_voltage feeder_unreadable = Return (VInt (-1))).
Proof.
  apply (battery_level_propagates_errors feeder_unreadable (VBool true)
           (VStr "n/a") ValueError);
    reflexivity.
Defined.

(** X21: on the nominal range of the raw voltage, from 22755 to 29100, the
    level is a percentage and grows with the voltage: for two snapshots with
    batteries installed whose raw values convert to [n1 <= n2] in that range,
    the levels are integers [r1 <= r2] between 0 and 100. *)
Theorem battery_level_monotone (d1 d2 i1 i2 raw1 raw2 : value) (n1 n2 : Z) :
  Py.getitem d1 "is_batteries_installed" = Return i1 -> Py.truth i1 = true ->
  Py.getitem d2 "is_batteries_installed" = Return i2 -> Py.truth i2 = true ->
  Py.getitem d1 "battery_voltage" = Return raw1 -> Py.int raw1 = Return n1 ->
  Py.getitem d2 "battery_voltage" = Return raw2 -> Py.int raw2 = Return n2 ->
  22755 <= n1 -> n1 <= n2 -> n2 <= 29100 ->
  exists r1 r2,
    DeviceSmartFeed.battery_level d1 = Return (VInt r1) /\
    DeviceSmartFeed.battery_level d2 = Return (VInt r2) /\
    0 <= r1 /\ r1 <= r2 /\ r2 <= 100.
Proof.
  intros Hi1 Ht1 Hi2 Ht2 Hr1 Hn1 Hr2 Hn2 Hlo Hle Hhi.
  exists ((200 * (n1 - 22755) + 6345) / 12690),
         ((200 * (n2 - 22755) + 6345) / 12690).
  rewrite (battery_level_installed d1 i1 raw1 n1 Hi1 Ht1 Hr1 Hn1).
  rewrite (battery_level_installed d2 i2 raw2 n2 Hi2 Ht2 Hr2 Hn2).
  change (29100 - 22755) with 6345.
  rewrite (level_nominal_range n1) by lia.
  rewrite (level_nominal_range n2) by lia.
  repeat split.
  - apply Z.div_pos; lia.
  - apply Z.div_le_mono; lia.
  - assert ((200 * (n2 - 22755) + 6345) / 12690 < 101); [|lia].
    apply Z.div_lt_upper_bound; lia.
Qed.

Lemma battery_level_monotone_witness :
  exists r1 r2,
    DeviceSmartFeed.battery_level feeder_half = Return (VInt r1) /\
    DeviceSmartFeed.battery_level feeder0 = Return (VInt r2) /\
    0 <= r1 /\ r1 <= r2 /\ r2 <= 100.
Proof.
  apply (battery_level_monotone feeder_half feeder0 (VInt 1) (VBool true)
           (VInt 25928) (VStr "29100") 25928 29100);
    first [reflexivity | lia].
Defined.

(** X22: [battery_voltage] never raises ValueError: what it raises is
    KeyError (no "battery_voltage" entry), TypeError (a snapshot that is not
    a dict, or a raw value that is None, a list or a dict) or OverflowError
    (an infinite float, or an integer too large for the division); and what
    it returns is a float or the int -1. *)
Theorem battery_voltage_outcomes (d : value) :
  (forall e,
     DeviceSmartFeed.battery_voltage d = Raise e ->
     e = KeyError "battery_voltage" \/ e = TypeError \/ e = OverflowError)
  /\
  (forall r,
     DeviceSmartFeed.battery_voltage d = Return r ->
     r = VInt (-1) \/ exists f, r = VFloat f).
Proof.
  unfold DeviceSmartFeed.battery_voltage.
  destruct (Py.getitem d "battery_voltage") as [raw|e0] eqn:Hr; cbn.
  - destruct (Py.int raw) as [n|e1] eqn:Hn; cbn.
    + destruct (Float.truediv n 32767) as [q|e2] eqn:Hq; cbn.
      * split; [done|]. intros r [= <-]. right. eauto.
      * apply truediv_raises in Hq; [|done]. subst e2. cbn.
        split; [|done]. intros e [= <-]. auto.
    + destruct (int_raises raw e1 Hn) as [->|[->| ->]]; cbn.
      * split; [|done]. intros e [= <-]. auto.
      * split; [done|]. intros r [= <-]. auto.
      * split; [|done]. intros e [= <-]. auto.
  - destruct (getitem_raises d _ e0 Hr) as [->| ->]; cbn.
    + split; [|done]. intros e [= <-]. auto.
    + split; [|done]. intros e [= <-]. auto.
Qed.

Lemma battery_voltage_outcomes_witness :
  (KeyError "battery_voltage" = KeyError "battery_voltage" \/
   KeyError "battery_voltage" = TypeError \/
   KeyError "battery_voltage" = OverflowError)
  /\
  (VInt (-1) = VInt (-1) \/ exists f, VInt (-1) = VFloat f).
Proof.
  split.
  - apply (proj1 (battery_voltage_outcomes litterbox0) (KeyError "battery_voltage")).
    reflexivity.
  - apply (proj2 (battery_voltage_outcomes feeder_unreadable) (VInt (-1))).
    reflexivity.
Defined.







(** ** Snapshots that lack what a call reads *)

(** X23: [feed] called without a slow-feed value reads the setting before
    anything else: on a snapshot where settings.slow_feed cannot be read (no
    "settings" entry, or no "slow_feed" in it) it raises the KeyError of that
    entry and sends nothing, the state being as before; the same call with a
    slow-feed value given does post the meal. *)
Theorem feed_needs_setting_only_by_default (amount slow_feed : value)
    (update : bool) (st : state) (path : string) (e : exn) :
  DeviceSmartFeed.api_path (data st) = Return path ->
  DeviceSmartFeed.slow_feed (data st) = Raise e ->
  DeviceSmartFeed.feed amount VNone update st = (Raise e, st) /\
  (slow_feed <> VNone ->
   exists rest,
     trace (DeviceSmartFeed.feed amount slow_feed update st).2 =
     (trace st ++
      Request POST (path +:+ "meals")
        (Some (VDict {[ "amount" := amount; "slow_feed" := slow_feed ]})) :: rest)%list).
Proof.
  intros Hp He. split.
  - unfold DeviceSmartFeed.feed. cbn [Py.is_none]. rewrite read_run.
    change (settings ← Py.getitem (data st) "settings";
            Py.getitem settings "slow_feed")
      with (DeviceSmartFeed.slow_feed (data st)).
    by rewrite He.
  - intros Hne. eexists.
    apply (feed_trace amount slow_feed slow_feed update st path Hp).
    by destruct slow_feed.
Qed.

Lemma feed_needs_setting_only_by_default_witness :
  DeviceSmartFeed.feed (VInt 1) VNone true (proxy 200 (Some feeder1) feeder1)
    = (Raise (KeyError "settings"), proxy 200 (Some feeder1) feeder1)
  /\
  (VBool true <> VNone ->
   exists rest,
     trace (DeviceSmartFeed.feed (VInt 1) (VBool true) true
              (proxy 200 (Some feeder1) feeder1)).2 =
     ([] ++
      Request POST ("smart-feed/feeders/feeder-1/" +:+ "meals")
        (Some (VDict {[ "amount" := VInt 1; "slow_feed" := VBool true ]})) :: rest)%list).
Proof.
  apply (feed_needs_setting_only_by_default (VInt 1) (VBool true) true
           (proxy 200 (Some feeder1) feeder1) "smart-feed/feeders/feeder-1/"
           (KeyError "settings"));
    reflexivity.
Defined.

(** X24: a refresh does not look at what it stores: when the body of a
    successful GET does not give the feeder's path (it has no "thing_name",
    or is not an object), [update_data] returns normally with that body as
    the snapshot, and from then on every feeder operation raises without
    sending a request. *)
Theorem refresh_stores_unusable_body (op : mutation) (st : state)
    (path : string) (body : value) (e : exn) :
  DeviceSmartFeed.api_path (data st) = Return path ->
  is_success (client st (trace st) (Request GET path None)) = true ->
  loaded (client st (trace st) (Request GET path None)) = Some body ->
  DeviceSmartFeed.api_path body = Raise e ->
  path_of op = DeviceSmartFeed.api_path ->
  exists st1,
    DeviceSmartFeed.update_data st = (Return tt, st1) /\
    data st1 = body /\
    (perform op st1).2 = st1 /\
    exists e', (perform op st1).1 = Raise e'.
Proof.
  intros Hp Hok Hbody He Hop.
  exists (set_data body (record (Request GET path None) st)).
  split; [by apply feeder_update_data_ok|]. split; [done|].
  apply (perform_without_path op _ e). by rewrite Hop.
Qed.

Lemma refresh_stores_unusable_body_witness :
  exists st1,
    DeviceSmartFeed.update_data (proxy 200 (Some (VList [])) feeder0)
      = (Return tt, st1) /\
    data st1 = VList [] /\
    (perform (Feed (VInt 1) (VBool false) true) st1).2 = st1 /\
    exists e', (perform (Feed (VInt 1) (VBool false) true) st1).1 = Raise e'.
Proof.
  apply (refresh_stores_unusable_body (Feed (VInt 1) (VBool false) true)
           (proxy 200 (Some (VList [])) feeder0)
           "smart-feed/feeders/feeder-1/" (VList []) TypeError);
    reflexivity.
Defined.
